(** * The cart aggregate of the ECOMMERCE backend

    A shallow embedding of [src/models/cart.model.js] (the Mongoose cart
    schema, its instance methods, its pre-save hook and its static methods,
    and the login counter of the user schema that the same file holds) and
    of the cart route handlers of [routes/cart.routes.js].

    Modelling choices.
    - A JavaScript [Number] is modelled by an exact rational [Q]: [+], [-],
      [*] and [<=] are [Qplus], [Qminus], [Qmult] and [Qle_bool]. Rounding,
      [NaN] and the infinities of IEEE doubles are outside the model. Numbers
      are compared with [==] ([Qeq]); values that the code merely copies are
      compared with [=]. What is stated of sums and differences as exact
      values is stated of integers within [Number.MAX_SAFE_INTEGER], where
      the code's doubles are exact as well.
    - An [ObjectId] is modelled by its [toString()] image, 24 hex digits in
      lower case; the code compares product ids through [toString()] only.
      An id that arrives in a request is a string; what Mongoose stores for
      it is its cast, [toObjectId], while [find] and [filter] compare the
      stored image with the string as it arrived. Strings that do not cast
      to an ObjectId are outside the model.
    - [Array.prototype.find] returns a reference to the first matching
      element, and the methods then assign to a field of it. The model keeps
      the index of that element ([list_find]) and writes through it
      ([alter]), so the update lands on the first match exactly as in the
      source.
    - The document store is a finite map from [userId] (the unique index of
      the schema) to the stored cart. [save] runs the pre-save hook and then
      writes. Schema validation and I/O failures of the backend (the
      [catch] branches of the statics and the 500 responses of the routes)
      are outside the model: the store is reliable and sequential, and what
      is proved of a static or a route is proved of a write that the
      backend accepts. [schema_valid] states the bounds that the schema's
      validators check. *)

From Stdlib Require Import QArith Lqa Ascii String.
From stdpp Require Import base option list strings gmap.

(** ** Data model *)

Abbreviation ObjectId := string.

(** [cartItemSchema] *)
Record CartItem : Type := mkCartItem {
  productId : ObjectId;
  name : string;
  price : Q;
  quantity : Q;
  image : string;
  category : string
}.

(** [cartSchema] *)
Record Cart : Type := mkCart {
  userId : ObjectId;
  items : list CartItem;
  totalAmount : Q;
  totalItems : Q
}.

(** The argument of [addProduct]: [image] and [category] may be
    [undefined] ([None]). *)
Record ProductData : Type := mkProductData {
  pd_productId : ObjectId;
  pd_name : string;
  pd_price : Q;
  pd_image : option string;
  pd_category : option string
}.

(** A hex digit in lower case: [A] to [F] become [a] to [f]. *)
Definition hexLower (ch : ascii) : ascii :=
  let n := N_of_ascii ch in
  if ((65 <=? n) && (n <=? 70))%N then ascii_of_N (n + 32) else ch.

(** The image of the ObjectId that a string casts to: its hex digits in
    lower case. This is what a pushed line holds as [productId]. *)
Fixpoint toObjectId (s : string) : ObjectId :=
  match s with
  | EmptyString => EmptyString
  | String ch rest => String (hexLower ch) (toObjectId rest)
  end.

(** [this.items = its] *)
Definition setItems (its : list CartItem) (this : Cart) : Cart :=
  mkCart (userId this) its (totalAmount this) (totalItems this).

(** [item.quantity = q] *)
Definition setQuantity (q : Q) (item : CartItem) : CartItem :=
  mkCartItem (productId item) (name item) (price item) q
             (image item) (category item).

(** [this.items.find(item => item.productId.toString() === productId.toString())],
    as the index of the element found together with the element. *)
Definition findItem (pid : ObjectId) (its : list CartItem)
  : option (nat * CartItem) :=
  list_find (λ item, productId item = pid) its.

(** [x || ''] for a string that may be [undefined]. *)
Definition orEmpty (x : option string) : string := default "" x.

(** ** Instance methods *)

Definition calculateTotals (this : Cart) : Cart :=
  mkCart (userId this) (items this)
    (fold_left (λ total item, total + price item * quantity item)%Q
               (items this) 0%Q)
    (fold_left (λ total item, total + quantity item)%Q (items this) 0%Q).

Definition addProduct (productData : ProductData) (this : Cart) : Cart :=
  let pid := pd_productId productData in
  calculateTotals
    match findItem pid (items this) with
    | Some (i, existingItem) =>
        setItems
          (alter (λ item, setQuantity (quantity item + 1)%Q item) i
                 (items this)) this
    | None =>
        setItems
          (items this ++
             [mkCartItem (toObjectId pid) (pd_name productData)
                (pd_price productData) 1%Q
                (orEmpty (pd_image productData))
                (orEmpty (pd_category productData))]) this
    end.

Definition removeProduct (pid : ObjectId) (this : Cart) : Cart :=
  calculateTotals
    (setItems (filter (λ item, productId item ≠ pid) (items this)) this).

Definition updateQuantity (pid : ObjectId) (q : Q) (this : Cart) : Cart :=
  if Qle_bool q 0 then removeProduct pid this
  else
    match findItem pid (items this) with
    | Some (i, item) =>
        calculateTotals (setItems (alter (setQuantity q) i (items this)) this)
    | None => this
    end.

Definition increaseQuantity (pid : ObjectId) (this : Cart) : Cart :=
  match findItem pid (items this) with
  | Some (i, item) =>
      calculateTotals
        (setItems
           (alter (λ item, setQuantity (quantity item + 1)%Q item) i
                  (items this)) this)
  | None => this
  end.

Definition decreaseQuantity (pid : ObjectId) (this : Cart) : Cart :=
  match findItem pid (items this) with
  | Some (i, item) =>
      let this' :=
        setItems
          (alter (λ item, setQuantity (quantity item - 1)%Q item) i
                 (items this)) this in
      if Qle_bool (quantity item - 1) 0 then removeProduct pid this'
      else calculateTotals this'
  | None => this
  end.

Definition clearCart (this : Cart) : Cart :=
  mkCart (userId this) [] 0%Q 0%Q.

Definition getCartItems (this : Cart) : list CartItem := items this.

Definition isEmpty (this : Cart) : bool := bool_decide (length (items this) = 0).

(** ** The document store and the static methods *)

Abbreviation Store := (gmap ObjectId Cart).

(** Computations that read and write the store. *)
Definition M (A : Type) : Type := Store → A * Store.

#[export] Instance M_ret : MRet M := λ A a st, (a, st).

#[export] Instance M_bind : MBind M :=
  λ A B k m st, let (a, st') := m st in k a st'.

(** [Cart.findOne({ userId })] *)
Definition findOne (uid : ObjectId) : M (option Cart) :=
  λ st, (st !! uid, st).

(** [cartSchema.pre('save', ...)] *)
Definition pre_save (this : Cart) : Cart := calculateTotals this.

(** [cart.save()]: the pre-save hook, then the write; resolves to the saved
    document. *)
Definition save (this : Cart) : M Cart :=
  λ st, let saved := pre_save this in (saved, <[userId saved := saved]> st).

Definition getOrCreateCart (uid : ObjectId) : M Cart :=
  found ← findOne uid ;
  match found with
  | Some cart => mret cart
  | None => save (mkCart uid [] 0%Q 0%Q)
  end.

Definition addProductToCart (uid : ObjectId) (productData : ProductData)
  : M Cart :=
  cart ← getOrCreateCart uid ; save (addProduct productData cart).

Definition removeProductFromCart (uid pid : ObjectId) : M Cart :=
  cart ← getOrCreateCart uid ; save (removeProduct pid cart).

Definition updateProductQuantity (uid pid : ObjectId) (q : Q) : M Cart :=
  cart ← getOrCreateCart uid ; save (updateQuantity pid q cart).

Definition increaseProductQuantity (uid pid : ObjectId) : M Cart :=
  cart ← getOrCreateCart uid ; save (increaseQuantity pid cart).

Definition decreaseProductQuantity (uid pid : ObjectId) : M Cart :=
  cart ← getOrCreateCart uid ; save (decreaseQuantity pid cart).

Definition clearUserCart (uid : ObjectId) : M Cart :=
  cart ← getOrCreateCart uid ; save (clearCart cart).

(** [Cart.getUserCart]: a lookup; the population of the product references
    changes how the items are rendered, not whether a cart is found. *)
Definition getUserCart (uid : ObjectId) : M (option Cart) := findOne uid.

(** ** Route handlers of [routes/cart.routes.js] *)

(** The JSON envelope of a response; [data] keeps the cart when the
    envelope carries one (its summary and formatted total are projections
    of it). *)
Record Response : Type := mkResponse {
  status : nat;
  success : bool;
  message : string;
  data : option Cart
}.

(** [!x] for a request field that is a string or [undefined]: the empty
    string is falsy as well. *)
Definition falsy (x : option string) : bool :=
  match x with
  | None => true
  | Some s => bool_decide (s = "")
  end.

(** [!cart] for a value that is a document: an object is never falsy. *)
Definition falsy_doc (cart : Cart) : bool := false.

(** [router.post('/create', ...)], [req.body.userId] given as [body_userId]. *)
Definition post_create (body_userId : option string) : M Response :=
  if falsy body_userId then
    mret (mkResponse 400 false "userId is required" None)
  else
    let uid := default "" body_userId in
    existingCart ← getUserCart uid ;
    match existingCart with
    | Some existing =>
        mret (mkResponse 409 false "Cart already exists for this user"
                (Some existing))
    | None =>
        cart ← getOrCreateCart uid ;
        mret (mkResponse 201 true "Cart created successfully" (Some cart))
    end.

(** [router.get('/:userId', ...)] *)
Definition get_cart (uid : ObjectId) : M Response :=
  cart ← getUserCart uid ;
  match cart with
  | None => mret (mkResponse 404 false "Cart not found for this user" None)
  | Some found =>
      mret (mkResponse 200 true "Cart retrieved successfully" (Some found))
  end.

(** [router.put('/:userId/quantity', ...)]: [uid] is the path parameter,
    [body_productId] and [body_quantity] the two body fields ([None] for
    [undefined]); [Number(quantity)] of a numeric field is the field. *)
Definition put_quantity (uid : ObjectId) (body_productId : option string)
    (body_quantity : option Q) : M Response :=
  match body_quantity with
  | None =>
      mret (mkResponse 400 false "productId and quantity are required" None)
  | Some q =>
      if falsy body_productId then
        mret (mkResponse 400 false "productId and quantity are required" None)
      else
        cart ← updateProductQuantity uid (default "" body_productId) q ;
        if falsy_doc cart then
          mret (mkResponse 404 false "Cart not found for this user" None)
        else
          mret (mkResponse 200 true "Product quantity updated successfully"
                  (Some cart))
  end.

(** ** The mutation operations as one datatype *)

Inductive Mutation : Type :=
  | AddProduct (productData : ProductData)
  | RemoveProduct (pid : ObjectId)
  | UpdateQuantity (pid : ObjectId) (q : Q)
  | IncreaseQuantity (pid : ObjectId)
  | DecreaseQuantity (pid : ObjectId)
  | ClearCart.

(** The instance method a mutation names. *)
Definition applyMutation (m : Mutation) (this : Cart) : Cart :=
  match m with
  | AddProduct productData => addProduct productData this
  | RemoveProduct pid => removeProduct pid this
  | UpdateQuantity pid q => updateQuantity pid q this
  | IncreaseQuantity pid => increaseQuantity pid this
  | DecreaseQuantity pid => decreaseQuantity pid this
  | ClearCart => clearCart this
  end.

(** The static method a mutation names, for the cart of user [uid]. *)
Definition applyStatic (m : Mutation) (uid : ObjectId) : M Cart :=
  match m with
  | AddProduct productData => addProductToCart uid productData
  | RemoveProduct pid => removeProductFromCart uid pid
  | UpdateQuantity pid q => updateProductQuantity uid pid q
  | IncreaseQuantity pid => increaseProductQuantity uid pid
  | DecreaseQuantity pid => decreaseProductQuantity uid pid
  | ClearCart => clearUserCart uid
  end.

(** The product a mutation targets, if it targets one. *)
Definition target (m : Mutation) : option ObjectId :=
  match m with
  | AddProduct productData => Some (pd_productId productData)
  | RemoveProduct pid | UpdateQuantity pid _
  | IncreaseQuantity pid | DecreaseQuantity pid => Some pid
  | ClearCart => None
  end.

(** ** Specification-side notions *)

(** The sum of a list of numbers. *)
Fixpoint sumQ (l : list Q) : Q :=
  match l with
  | [] => 0%Q
  | x :: r => (x + sumQ r)%Q
  end.

(** [price * quantity] of a line. *)
Definition lineAmount (item : CartItem) : Q :=
  (price item * quantity item)%Q.

(** The derived totals agree with the lines. *)
Definition totals_ok (c : Cart) : Prop :=
  (totalAmount c == sumQ (lineAmount <$> items c))%Q ∧
  (totalItems c == sumQ (quantity <$> items c))%Q.

(** At most one line per product. *)
Definition unique_products (c : Cart) : Prop :=
  NoDup (productId <$> items c).

(** A number that is an integer. *)
Definition is_integer (q : Q) : Prop := ∃ z : Z, (q == inject_Z z)%Q.

(** A quantity the data model allows: an integer, at least 1. *)
Definition quantity_ok (q : Q) : Prop := is_integer q ∧ (1 <= q)%Q.

(** The lines of a cart other than those of product [pid], in order. *)
Definition others (pid : ObjectId) (its : list CartItem) : list CartItem :=
  filter (λ item, productId item ≠ pid) its.

(** Every line has a quantity the data model allows. *)
Definition quantities_ok (c : Cart) : Prop :=
  Forall (λ item, quantity_ok (quantity item)) (items c).

(** Every line has a quantity above 0. *)
Definition quantities_positive (c : Cart) : Prop :=
  Forall (λ item, (0 < quantity item)%Q) (items c).

(** The numeric argument of the mutation, when it has one, is an integer. *)
Definition integer_argument (m : Mutation) : Prop :=
  match m with
  | UpdateQuantity _ q => is_integer q
  | _ => True
  end.

(** ** Sample data for the concrete instances *)

Definition widget : ProductData := mkProductData "p1" "Widget" 1000 None None.

Definition widget_repriced : ProductData :=
  mkProductData "p1" "Widget v2" 1200 (Some "w.png") (Some "tools").

(** A product id in upper-case hex, and the image of its ObjectId. *)
Definition id_upper : string := "BBBBBBBBBBBBBBBBBBBBBBB1".

Definition id_lower : ObjectId := "bbbbbbbbbbbbbbbbbbbbbbb1".

Definition lamp : ProductData :=
  mkProductData id_upper "Lamp" 20 None None.

Definition cart_lamp : Cart :=
  mkCart "aaaaaaaaaaaaaaaaaaaaaaa1"
    [mkCartItem id_lower "Lamp" 20 1 "" ""] 20 1.

Definition cart_p2 : Cart :=
  mkCart "u1" [mkCartItem "p2" "Gadget" 300 1 "" ""] 300 1.

Definition cart_p1_twice : Cart :=
  mkCart "u1" [mkCartItem "p1" "Widget" 500 2 "" ""] 1000 2.

Definition cart_p1_once : Cart :=
  mkCart "u1" [mkCartItem "p1" "Widget" 1000 1 "" ""] 1000 1.

Definition cart_p2_p1 : Cart :=
  mkCart "u1" [mkCartItem "p2" "Gadget" 300 1 "" "";
               mkCartItem "p1" "Widget" 500 3 "" ""] 1800 4.

(** ** The summary, the remaining statics and the remaining cart routes *)

(** The object that [getCartSummary] returns. *)
Record CartSummary : Type := mkCartSummary {
  summary_totalItems : Q;
  summary_totalAmount : Q;
  itemCount : nat;
  summary_isEmpty : bool
}.

Definition getCartSummary (this : Cart) : CartSummary :=
  mkCartSummary (totalItems this) (totalAmount this) (length (items this))
                (isEmpty this).

(** [Cart.findByUserId]: [findOne] with the product references populated. *)
Definition findByUserId (uid : ObjectId) : M (option Cart) := findOne uid.

(** The envelope of the routes that answer with a projection of the cart. *)
Record Reply (A : Type) : Type := mkReply {
  reply_status : nat;
  reply_success : bool;
  reply_message : string;
  reply_data : option A
}.

Arguments mkReply {A} _ _ _ _.
Arguments reply_status {A} _.
Arguments reply_success {A} _.
Arguments reply_message {A} _.
Arguments reply_data {A} _.

(** A body field that is read as a number: absent, a JSON number, or a
    string (a JSON string, or any field of a form-encoded body) together
    with the number that [Number] reads from it; strings that read as
    [NaN] are outside the model. *)
Inductive NumberField : Type :=
  | FieldUndefined
  | FieldNumber (q : Q)
  | FieldString (s : string) (read : Q).

(** [!x] for such a field: [undefined], the number 0 and the empty string
    are falsy; a string that is not empty is not, whatever it reads as. *)
Definition falsy_field (x : NumberField) : bool :=
  match x with
  | FieldUndefined => true
  | FieldNumber q => Qeq_bool q 0
  | FieldString s _ => bool_decide (s = "")
  end.

(** [Number(x)] for a field that passed the [!x] test. *)
Definition toNumber (x : NumberField) : Q :=
  match x with
  | FieldUndefined => 0%Q
  | FieldNumber q => q
  | FieldString _ read => read
  end.

(** [router.post('/add', ...)]: the six body fields. *)
Definition post_add (body_userId body_productId body_name : option string)
    (body_price : NumberField) (body_image body_category : option string)
  : M Response :=
  if falsy body_userId || falsy body_productId || falsy body_name
     || falsy_field body_price then
    mret (mkResponse 400 false
            "userId, productId, name, and price are required" None)
  else
    let productData :=
      mkProductData (default "" body_productId) (default "" body_name)
        (toNumber body_price) (Some (orEmpty body_image))
        (Some (orEmpty body_category)) in
    cart ← addProductToCart (default "" body_userId) productData ;
    mret (mkResponse 201 true "Product added to cart successfully"
            (Some cart)).

(** [router.patch('/:userId/increase', ...)] *)
Definition patch_increase (uid : ObjectId) (body_productId : option string)
  : M Response :=
  if falsy body_productId then
    mret (mkResponse 400 false "productId is required" None)
  else
    cart ← increaseProductQuantity uid (default "" body_productId) ;
    if falsy_doc cart then
      mret (mkResponse 404 false "Cart not found for this user" None)
    else
      mret (mkResponse 200 true "Product quantity increased successfully"
              (Some cart)).

(** [router.patch('/:userId/decrease', ...)] *)
Definition patch_decrease (uid : ObjectId) (body_productId : option string)
  : M Response :=
  if falsy body_productId then
    mret (mkResponse 400 false "productId is required" None)
  else
    cart ← decreaseProductQuantity uid (default "" body_productId) ;
    mret (mkResponse 200 true "Product quantity decreased successfully"
            (Some cart)).

(** [router.delete('/:userId/remove', ...)] *)
Definition delete_remove (uid : ObjectId) (body_productId : option string)
  : M Response :=
  if falsy body_productId then
    mret (mkResponse 400 false "productId is required" None)
  else
    cart ← removeProductFromCart uid (default "" body_productId) ;
    if falsy_doc cart then
      mret (mkResponse 404 false "Cart not found for this user" None)
    else
      mret (mkResponse 200 true "Product removed from cart successfully"
              (Some cart)).

(** [router.delete('/:userId/clear', ...)] *)
Definition delete_clear (uid : ObjectId) : M Response :=
  cart ← clearUserCart uid ;
  if falsy_doc cart then
    mret (mkResponse 404 false "Cart not found for this user" None)
  else
    mret (mkResponse 200 true "Cart cleared successfully" (Some cart)).

(** [router.get('/:userId/items', ...)]: the data are the items and their
    number. *)
Definition get_items (uid : ObjectId) : M (Reply (list CartItem * nat)) :=
  cart ← getUserCart uid ;
  match cart with
  | None => mret (mkReply 404 false "Cart not found for this user" None)
  | Some found =>
      let its := getCartItems found in
      mret (mkReply 200 true "Cart items retrieved successfully"
              (Some (its, length its)))
  end.

(** [router.get('/:userId/summary', ...)] *)
Definition get_summary (uid : ObjectId) : M (Reply CartSummary) :=
  cart ← getUserCart uid ;
  match cart with
  | None => mret (mkReply 404 false "Cart not found for this user" None)
  | Some found =>
      mret (mkReply 200 true "Cart summary retrieved successfully"
              (Some (getCartSummary found)))
  end.

(** The requests that reach a mutating static. *)
Inductive MutatingRequest : Type :=
  | PostAdd (body_userId body_productId body_name : option string)
            (body_price : NumberField)
            (body_image body_category : option string)
  | PutQuantity (uid : ObjectId) (body_productId : option string)
                (body_quantity : option Q)
  | PatchIncrease (uid : ObjectId) (body_productId : option string)
  | PatchDecrease (uid : ObjectId) (body_productId : option string)
  | DeleteRemove (uid : ObjectId) (body_productId : option string)
  | DeleteClear (uid : ObjectId).

(** The handler of a mutating request. *)
Definition handle (r : MutatingRequest) : M Response :=
  match r with
  | PostAdd u p n pr i c => post_add u p n pr i c
  | PutQuantity uid p q => put_quantity uid p q
  | PatchIncrease uid p => patch_increase uid p
  | PatchDecrease uid p => patch_decrease uid p
  | DeleteRemove uid p => delete_remove uid p
  | DeleteClear uid => delete_clear uid
  end.

(** The user whose cart a mutating request addresses. *)
Definition addressee (r : MutatingRequest) : ObjectId :=
  match r with
  | PostAdd u _ _ _ _ _ => default "" u
  | PutQuantity uid _ _ | PatchIncrease uid _ | PatchDecrease uid _
  | DeleteRemove uid _ | DeleteClear uid => uid
  end.

(** Every stored cart is stored under its own [userId]. *)
Definition store_wf (st : Store) : Prop :=
  map_Forall (λ uid c, userId c = uid) st.

(** Every line has a price of at least 0 (the schema's [min: 0]). *)
Definition prices_ok (c : Cart) : Prop :=
  Forall (λ item, (0 <= price item)%Q) (items c).

(** An id spelled as its ObjectId prints it. *)
Definition canonical (pid : string) : Prop := toObjectId pid = pid.


(** The mutation acts on a line that is there: for [addProduct], [find]
    returns a line. *)
Definition on_existing_line (m : Mutation) (c : Cart) : Prop :=
  match m with
  | AddProduct productData =>
      is_Some (findItem (pd_productId productData) (items c))
  | _ => True
  end.

(** [Number.MAX_SAFE_INTEGER], 2^53 - 1: up to it the integers and their
    sums are exact in a double. *)
Definition max_safe_integer : Q := 9007199254740991.

(** Two lines carry the same product snapshot. *)
Definition same_snapshot (x y : CartItem) : Prop :=
  productId x = productId y ∧ name x = name y ∧ price x = price y ∧
  image x = image y ∧ category x = category y.

(** The line that [addProduct] pushes for a product not yet in the cart. *)
Definition newLine (productData : ProductData) : CartItem :=
  mkCartItem (toObjectId (pd_productId productData)) (pd_name productData)
    (pd_price productData) 1%Q (orEmpty (pd_image productData))
    (orEmpty (pd_category productData)).

Definition store_two_users : Store :=
  <["u2" := mkCart "u2" [mkCartItem "p2" "Gadget" 300 1 "" ""] 300 1]>
    {["u1" := cart_p1_once]}.

(** The price that the mutation brings, when it brings one, is at least 0. *)
Definition price_argument_ok (m : Mutation) : Prop :=
  match m with
  | AddProduct productData => (0 <= pd_price productData)%Q
  | _ => True
  end.

(** ** The login counter of the user model

    The same source file holds the user schema. Of a user document only the
    two fields that the lock-out methods read and write are kept. A [Date]
    is its number of milliseconds, the value JavaScript compares it by;
    [lockUntil] is [None] while the field is unset. [loginAttempts] is an
    integer: the code only sets it to 1, adds 1 to it or unsets it, and an
    unset counter reads as the schema's default 0. Each reading of
    [Date.now()] is an argument of its own. *)

Record User : Type := mkUser {
  loginAttempts : Z;
  lockUntil : option Z
}.

(** The update document handed to [updateOne]: the operators [$unset],
    [$set] and [$inc] on the two fields. *)
Record Update : Type := mkUpdate {
  unset_loginAttempts : bool;
  unset_lockUntil : bool;
  set_loginAttempts : option Z;
  set_lockUntil : option Z;
  inc_loginAttempts : option Z
}.

(** [this.updateOne(update)]: the stored document after the operators have
    been applied to it. *)
Definition updateOne (update : Update) (this : User) : User :=
  mkUser
    (match set_loginAttempts update with
     | Some n => n
     | None =>
         match inc_loginAttempts update with
         | Some k => (loginAttempts this + k)%Z
         | None =>
             if unset_loginAttempts update then 0%Z else loginAttempts this
         end
     end)
    (match set_lockUntil update with
     | Some t => Some t
     | None => if unset_lockUntil update then None else lockUntil this
     end).

(** The virtual [isLocked], read at time [now]. *)
Definition isLocked (now : Z) (this : User) : bool :=
  match lockUntil this with
  | Some t => bool_decide (now < t)%Z
  | None => false
  end.

(** [2 * 60 * 60 * 1000] *)
Definition two_hours : Z := 2 * 60 * 60 * 1000.

(** [incLoginAttempts], with the three readings of the clock: [t1] in the
    test for an expired lock, [t2] inside [isLocked], [t3] for the new
    lock. *)
Definition incLoginAttempts (t1 t2 t3 : Z) (this : User) : User :=
  if match lockUntil this with
     | Some t => bool_decide (t < t1)%Z
     | None => false
     end
  then updateOne (mkUpdate false true (Some 1%Z) None None) this
  else
    let updates := mkUpdate false false None None (Some 1%Z) in
    let updates :=
      if bool_decide (20 ≤ loginAttempts this + 1)%Z && negb (isLocked t2 this)
      then mkUpdate false false None (Some (t3 + two_hours)%Z) (Some 1%Z)
      else updates in
    updateOne updates this.

(** [resetLoginAttempts]; the [lastLogin] it sets is not among the fields
    kept. *)
Definition resetLoginAttempts (this : User) : User :=
  updateOne (mkUpdate true true None None None) this.

(** A run of failed logins, each with its three readings of the clock. *)
Definition failedLogins (clock : list (Z * Z * Z)) (this : User) : User :=
  foldl (λ user t, incLoginAttempts t.1.1 t.1.2 t.2 user) this clock.

(** ** Facts about [find], the write through the found index, and sums *)

Section FindAndAlter.

Context (pid : ObjectId).

(** What [find] returning an element says about the array: the element
    sits at the index, it matches, and nothing before it matches. *)
Lemma findItem_Some_split (its : list CartItem) i x :
  findItem pid its = Some (i, x) →
  ∃ l1 l2, its = l1 ++ x :: l2 ∧ i = length l1 ∧ productId x = pid ∧
           Forall (λ y, productId y ≠ pid) l1.
Proof.
  unfold findItem. intros (Hi & Hx & Hleast)%list_find_Some.
  destruct (list_elem_of_split_length _ _ _ Hi) as (l1 & l2 & -> & ->).
  exists l1, l2. split_and!; try done.
  apply Forall_lookup. intros j y Hj.
  apply (Hleast j y).
  - by rewrite lookup_app_l by eauto using lookup_lt_Some.
  - eauto using lookup_lt_Some.
Qed.

Lemma findItem_None (its : list CartItem) :
  findItem pid its = None ↔ Forall (λ y, productId y ≠ pid) its.
Proof. apply list_find_None. Qed.

Lemma findItem_middle (l1 l2 : list CartItem) x :
  Forall (λ y, productId y ≠ pid) l1 → productId x = pid →
  findItem pid (l1 ++ x :: l2) = Some (length l1, x).
Proof.
  intros Hl1 Hx. apply list_find_Some. split_and!; try done.
  - by apply list_lookup_middle.
  - intros j y Hj Hlt. rewrite lookup_app_l in Hj by done.
    eapply Forall_lookup_1 in Hl1; [|exact Hj]. done.
Qed.

(** The assignment through the reference that [find] returned. *)
Lemma alter_middle (f : CartItem → CartItem) (l1 l2 : list CartItem) x :
  alter f (length l1) (l1 ++ x :: l2) = l1 ++ f x :: l2.
Proof.
  replace (length l1) with (length l1 + 0) by lia.
  by rewrite alter_app_r.
Qed.

Lemma others_id (its : list CartItem) :
  Forall (λ y, productId y ≠ pid) its → others pid its = its.
Proof.
  unfold others. induction 1 as [|y l Hy _ IH]; [done|].
  rewrite filter_cons_True by done. by rewrite IH.
Qed.

Lemma others_middle (l1 l2 : list CartItem) x :
  productId x = pid →
  others pid (l1 ++ x :: l2) = others pid l1 ++ others pid l2.
Proof.
  intros Hx. unfold others. rewrite filter_app, filter_cons_False; [done|].
  intros Hne. by apply Hne.
Qed.

Lemma others_snoc (its : list CartItem) x :
  productId x = pid → others pid (its ++ [x]) = others pid its.
Proof.
  intros Hx. rewrite others_middle by done. unfold others at 2.
  by rewrite filter_nil, app_nil_r.
Qed.

Lemma lines_of_absent (its : list CartItem) :
  Forall (λ y, productId y ≠ pid) its →
  filter (λ y, productId y = pid) its = [].
Proof.
  induction 1 as [|y l Hy _ IH]; [done|].
  by rewrite filter_cons_False.
Qed.

Lemma others_Forall (its : list CartItem) :
  Forall (λ y, productId y ≠ pid) (others pid its).
Proof. apply Forall_forall. by intros y [? _]%list_elem_of_filter. Qed.

End FindAndAlter.

Section Sums.

Context {A : Type} (g : A → Q).

(** The left-to-right [reduce] from 0 computes the sum. *)
Lemma reduce_sumQ (l : list A) (a : Q) :
  (fold_left (λ total x, total + g x) l a == a + sumQ (g <$> l))%Q.
Proof.
  revert a. induction l as [|x l IH]; intros a; simpl.
  - by rewrite Qplus_0_r.
  - rewrite IH. by rewrite Qplus_assoc.
Qed.

End Sums.

Lemma calculateTotals_ok (c : Cart) : totals_ok (calculateTotals c).
Proof.
  split; simpl.
  - rewrite (reduce_sumQ lineAmount). apply Qplus_0_l.
  - rewrite (reduce_sumQ quantity). apply Qplus_0_l.
Qed.

Lemma calculateTotals_items (c : Cart) : items (calculateTotals c) = items c.
Proof. done. Qed.

(** The recomputation is idempotent. *)
Lemma calculateTotals_idem (c : Cart) :
  calculateTotals (calculateTotals c) = calculateTotals c.
Proof. done. Qed.

(** ** The statics: fetch or create, mutate, save *)

(** Running a sequence: the continuation gets the result and the store
    that the first computation leaves. *)
Lemma bind_run {A B} (m : M A) (k : A → M B) (st : Store) :
  (m ≫= k) st = k (m st).1 (m st).2.
Proof. unfold mbind, M_bind. by destruct (m st). Qed.

Lemma save_result (c : Cart) (st : Store) :
  save c st = (calculateTotals c, <[userId c := calculateTotals c]> st).
Proof. done. Qed.

(** Every static has the shape [getOrCreateCart], then a method, then
    [save]. *)
Lemma applyStatic_unfold (m : Mutation) (uid : ObjectId) (st : Store) :
  applyStatic m uid st =
  save (applyMutation m (getOrCreateCart uid st).1) (getOrCreateCart uid st).2.
Proof.
  destruct m; simpl;
    unfold addProductToCart, removeProductFromCart, updateProductQuantity,
      increaseProductQuantity, decreaseProductQuantity, clearUserCart;
    by rewrite bind_run.
Qed.

Lemma getOrCreateCart_found (uid : ObjectId) (st : Store) (c : Cart) :
  st !! uid = Some c → getOrCreateCart uid st = (c, st).
Proof.
  intros H. unfold getOrCreateCart. rewrite bind_run.
  unfold findOne. simpl. by rewrite H.
Qed.

Lemma getOrCreateCart_created (uid : ObjectId) (st : Store) :
  st !! uid = None →
  getOrCreateCart uid st =
  (mkCart uid [] 0%Q 0%Q, <[uid := mkCart uid [] 0%Q 0%Q]> st).
Proof.
  intros H. unfold getOrCreateCart. rewrite bind_run.
  unfold findOne. simpl. by rewrite H.
Qed.

(** The methods either recompute the totals or leave the cart alone;
    [clearCart] writes the totals of the empty list. *)
Lemma applyMutation_totals (m : Mutation) (c : Cart) :
  totals_ok c → totals_ok (applyMutation m c).
Proof.
  intros Hc. destruct m as [d|pid|pid q|pid|pid|]; simpl.
  - apply calculateTotals_ok.
  - apply calculateTotals_ok.
  - unfold updateQuantity. destruct (Qle_bool q 0).
    + apply calculateTotals_ok.
    + destruct (findItem pid (items c)) as [[i x]|];
        [apply calculateTotals_ok | done].
  - unfold increaseQuantity.
    destruct (findItem pid (items c)) as [[i x]|];
      [apply calculateTotals_ok | done].
  - unfold decreaseQuantity.
    destruct (findItem pid (items c)) as [[i x]|]; [|done].
    simpl. destruct (Qle_bool _ 0); apply calculateTotals_ok.
  - split; simpl; reflexivity.
Qed.

(** C1: after every mutation the totals are the sums over the lines. For
    the cart that a static saves and returns, whatever the store held
    before, [totalAmount] is the sum of [price * quantity] and [totalItems]
    the sum of [quantity] over its items, and that cart is the one the
    store holds afterwards; the pre-save hook establishes this for the
    result of any method on any cart; the methods preserve it on their own;
    and a cart saved with no items has both totals equal to 0. *)
Theorem totals_after_every_mutation
    (m : Mutation) (uid : ObjectId) (st : Store) (c : Cart) :
  let saved := (applyStatic m uid st).1 in
  let st' := (applyStatic m uid st).2 in
  (totals_ok saved ∧ st' !! userId saved = Some saved) ∧
  totals_ok (pre_save (applyMutation m c)) ∧
  (totals_ok c → totals_ok (applyMutation m c)) ∧
  (items saved = [] → totalAmount saved = 0%Q ∧ totalItems saved = 0%Q).
Proof.
  simpl. rewrite applyStatic_unfold, save_result. simpl.
  split_and!.
  - apply calculateTotals_ok.
  - apply lookup_insert_eq.
  - apply calculateTotals_ok.
  - apply applyMutation_totals.
  - by intros ->.
Qed.

Lemma totals_after_every_mutation_witness :
  totals_ok (applyMutation (IncreaseQuantity "p1") cart_p1_twice) ∧
  (totalAmount (applyStatic (DecreaseQuantity "p1") "u1" ∅).1 = 0%Q ∧
   totalItems (applyStatic (DecreaseQuantity "p1") "u1" ∅).1 = 0%Q).
Proof.
  split.
  - apply (totals_after_every_mutation (IncreaseQuantity "p1") "u1" ∅
             cart_p1_twice).
    split; reflexivity.
  - apply (totals_after_every_mutation (DecreaseQuantity "p1") "u1" ∅
             cart_p1_twice).
    reflexivity.
Defined.

(** ** [addProduct] *)

Lemma addProduct_existing (d : ProductData) (c : Cart) l1 x l2 :
  items c = l1 ++ x :: l2 →
  Forall (λ y, productId y ≠ pd_productId d) l1 →
  productId x = pd_productId d →
  items (addProduct d c) = l1 ++ setQuantity (quantity x + 1) x :: l2.
Proof.
  intros Hc Hl1 Hx. unfold addProduct. rewrite calculateTotals_items.
  rewrite Hc, (findItem_middle _ l1 l2 x Hl1 Hx). simpl.
  apply (alter_middle (λ item, setQuantity (quantity item + 1) item)).
Qed.

Lemma addProduct_new (d : ProductData) (c : Cart) :
  Forall (λ y, productId y ≠ pd_productId d) (items c) →
  items (addProduct d c) =
  items c ++ [mkCartItem (toObjectId (pd_productId d)) (pd_name d)
                (pd_price d) 1
                (orEmpty (pd_image d)) (orEmpty (pd_category d))].
Proof.
  intros Hc%findItem_None. unfold addProduct.
  rewrite calculateTotals_items. by rewrite Hc.
Qed.

Lemma inject_Z_succ (n : Z) : (inject_Z n + 1)%Q = inject_Z (n + 1).
Proof. unfold Qplus, inject_Z. simpl. f_equal. lia. Qed.

(** Further [addProduct] calls for a product whose line is the last one
    only count that line up. *)
Lemma addProduct_repeat (pid : ObjectId) (ds : list ProductData) :
  Forall (λ d', pd_productId d' = pid) ds →
  ∀ (c : Cart) (base : list CartItem) (x : CartItem) (k : Z),
    items c = base ++ [setQuantity (inject_Z k) x] →
    Forall (λ y, productId y ≠ pid) base →
    productId x = pid →
    items (foldl (λ acc d', addProduct d' acc) c ds) =
    base ++ [setQuantity (inject_Z (k + Z.of_nat (length ds))) x].
Proof.
  induction 1 as [|d' ds Hd' _ IH]; intros c base x k Hc Hbase Hx; simpl.
  - by rewrite Z.add_0_r.
  - rewrite (IH (addProduct d' c) base x (k + 1)%Z); [| |done..].
    + by replace (k + 1 + Z.of_nat (length ds))%Z
        with (k + Z.of_nat (S (length ds)))%Z by lia.
    + rewrite (addProduct_existing d' c base (setQuantity (inject_Z k) x) []);
        [|done| by rewrite Hd' | by rewrite Hd'].
      simpl. by rewrite inject_Z_succ.
Qed.

(** C2, at an id in upper case: the pushed line holds the cast id, in lower
    case, and the next [find] compares it with the id as it arrived. Two
    [addProduct] calls with the same upper-case [productId] on a cart
    without the product leave two lines of quantity 1 for it, where one
    line of quantity 2 is due. *)
Theorem addProduct_uppercase_id_is_not_merged :
  items (addProduct lamp (addProduct lamp
           (mkCart "aaaaaaaaaaaaaaaaaaaaaaa1" [] 0 0))) =
  [mkCartItem id_lower "Lamp" 20 1 "" "";
   mkCartItem id_lower "Lamp" 20 1 "" ""].
Proof. reflexivity. Qed.

(** X21: [addProduct] merges by product when the id arrives as its ObjectId
    prints it. If the first line whose id equals the snapshot's
    [productId] is [x], that line's quantity goes up by 1 and its [price],
    [name], [image] and [category] stay those of [x], not of the snapshot,
    and no line is added; if there is no such line, one line with quantity
    1 and the cast id is appended. So for a canonical id, from a cart
    without the product, [N] calls for that product (with any snapshots of
    it, [N] within [Number.MAX_SAFE_INTEGER]) leave exactly one line for
    it, the one of the first snapshot, with quantity [N]. *)
Theorem addProduct_merges_canonical_id (c : Cart) (d : ProductData) :
  (∀ l1 x l2,
     items c = l1 ++ x :: l2 →
     Forall (λ y, productId y ≠ pd_productId d) l1 →
     productId x = pd_productId d →
     items (addProduct d c) =
     l1 ++ mkCartItem (productId x) (name x) (price x) (quantity x + 1)
             (image x) (category x) :: l2) ∧
  (Forall (λ y, productId y ≠ pd_productId d) (items c) →
   items (addProduct d c) =
   items c ++ [mkCartItem (toObjectId (pd_productId d)) (pd_name d)
                 (pd_price d) 1
                 (orEmpty (pd_image d)) (orEmpty (pd_category d))]) ∧
  (canonical (pd_productId d) →
   Forall (λ y, productId y ≠ pd_productId d) (items c) →
   ∀ ds : list ProductData,
     Forall (λ d', pd_productId d' = pd_productId d) ds →
     (inject_Z (Z.of_nat (S (length ds))) <= max_safe_integer)%Q →
     let c' := foldl (λ acc d', addProduct d' acc) (addProduct d c) ds in
     items c' =
     items c ++ [mkCartItem (pd_productId d) (pd_name d) (pd_price d)
                   (inject_Z (Z.of_nat (S (length ds))))
                   (orEmpty (pd_image d)) (orEmpty (pd_category d))] ∧
     length (filter (λ y, productId y = pd_productId d) (items c')) = 1).
Proof.
  split_and!.
  - intros l1 x l2. apply addProduct_existing.
  - apply addProduct_new.
  - intros Hcan Hc ds Hds _. simpl.
    set (x := mkCartItem (pd_productId d) (pd_name d) (pd_price d) 1
                (orEmpty (pd_image d)) (orEmpty (pd_category d))).
    assert (Hnew : items (addProduct d c) = items c ++ [setQuantity 1 x]).
    { rewrite (addProduct_new d c Hc). unfold canonical in Hcan.
      by rewrite Hcan. }
    assert (Hrep := addProduct_repeat (pd_productId d) ds Hds
                      (addProduct d c) (items c) x 1 Hnew Hc eq_refl).
    replace (1 + Z.of_nat (length ds))%Z
      with (Z.of_nat (S (length ds))) in Hrep by lia.
    rewrite Hrep. split; [done|].
    rewrite filter_app, filter_cons_True, filter_nil by done.
    rewrite length_app. simpl.
    by rewrite (lines_of_absent _ _ Hc).
Qed.

Lemma addProduct_merges_canonical_id_witness :
  items (addProduct widget_repriced (addProduct widget cart_p2)) =
    [mkCartItem "p2" "Gadget" 300 1 "" "";
     mkCartItem "p1" "Widget" 1000 (1 + 1) "" ""] ∧
  items (addProduct widget cart_p2) =
    [mkCartItem "p2" "Gadget" 300 1 "" ""; mkCartItem "p1" "Widget" 1000 1 "" ""] ∧
  items (foldl (λ acc d', addProduct d' acc) (addProduct widget cart_p2)
           [widget_repriced; widget]) =
    [mkCartItem "p2" "Gadget" 300 1 "" ""; mkCartItem "p1" "Widget" 1000 3 "" ""].
Proof.
  split_and!.
  - apply (proj1 (addProduct_merges_canonical_id (addProduct widget cart_p2)
                    widget_repriced)
             [mkCartItem "p2" "Gadget" 300 1 "" ""]
             (mkCartItem "p1" "Widget" 1000 1 "" "") []).
    + reflexivity.
    + repeat constructor. simpl. discriminate.
    + reflexivity.
  - apply (proj1 (proj2 (addProduct_merges_canonical_id cart_p2 widget))).
    repeat constructor. simpl. discriminate.
  - apply (proj2 (proj2 (addProduct_merges_canonical_id cart_p2 widget))).
    + reflexivity.
    + repeat constructor. simpl. discriminate.
    + repeat constructor.
    + by intros ?.
Defined.

(** ** One line per product *)

(** Assigning to [quantity] does not change which products the lines are
    for. *)
Lemma productIds_alter (g : CartItem → Q) (i : nat) (its : list CartItem) :
  productId <$> alter (λ item, setQuantity (g item) item) i its =
  productId <$> its.
Proof.
  revert i. induction its as [|y its IH]; intros [|i]; simpl; try done.
  f_equal. apply IH.
Qed.

Lemma productIds_others (pid : ObjectId) (its : list CartItem) :
  NoDup (productId <$> its) → NoDup (productId <$> others pid its).
Proof.
  intros H. eapply sublist_NoDup; [exact H|].
  apply fmap_sublist, sublist_filter.
Qed.

Lemma productIds_snoc (its : list CartItem) (x : CartItem) :
  Forall (λ y, productId y ≠ productId x) its →
  NoDup (productId <$> its) → NoDup (productId <$> (its ++ [x])).
Proof.
  intros Hx H. rewrite fmap_app. apply NoDup_app. split_and!; [done| |].
  - intros p (y & -> & Hy)%list_elem_of_fmap Hin.
    apply list_elem_of_singleton in Hin.
    by apply (proj1 (Forall_forall _ _) Hx y Hy).
  - apply NoDup_singleton.
Qed.

(** C3, at an id in upper case: a cart that holds one line of a product,
    and so has one line per product, holds two lines with that product's id
    after [addProduct] with the id spelled in upper case. *)
Theorem addProduct_uppercase_id_duplicates_product :
  unique_products cart_lamp ∧
  productId <$> items (applyMutation (AddProduct lamp) cart_lamp) =
    [id_lower; id_lower] ∧
  ¬ unique_products (applyMutation (AddProduct lamp) cart_lamp).
Proof.
  split_and!.
  - unfold unique_products. simpl. apply NoDup_singleton.
  - reflexivity.
  - unfold unique_products. simpl. intros H.
    apply NoDup_cons in H as [H _]. apply H, list_elem_of_here.
Qed.

(** Pushing the line of a canonical id that no line has keeps the ids
    distinct. *)
Lemma canonical_snoc (its : list CartItem) (d : ProductData) :
  canonical (pd_productId d) →
  Forall (λ y, productId y ≠ pd_productId d) its →
  NoDup (productId <$> its) → NoDup (productId <$> (its ++ [newLine d])).
Proof.
  intros Hcan Hd H. apply productIds_snoc; [|done].
  simpl. unfold canonical in Hcan. by rewrite Hcan.
Qed.

(** X22: every mutation keeps at most one line per [productId], provided
    the id of an [addProduct] arrives as its ObjectId prints it. *)
Theorem one_line_per_product (m : Mutation) (c : Cart) :
  (∀ d, m = AddProduct d → canonical (pd_productId d)) →
  unique_products c → unique_products (applyMutation m c).
Proof.
  unfold unique_products. intros Hcan Hc.
  destruct m as [d|pid|pid q|pid|pid|]; simpl.
  - destruct (findItem (pd_productId d) (items c)) as [[i x]|] eqn:Hfind;
      simpl.
    + by rewrite (productIds_alter (λ item, quantity item + 1)%Q).
    + apply findItem_None in Hfind.
      by apply (canonical_snoc (items c) d (Hcan d eq_refl)).
  - by apply productIds_others.
  - unfold updateQuantity. destruct (Qle_bool q 0).
    + by apply productIds_others.
    + destruct (findItem pid (items c)) as [[i x]|]; [|done].
      simpl. by rewrite (productIds_alter (λ _, q)).
  - unfold increaseQuantity.
    destruct (findItem pid (items c)) as [[i x]|]; [|done].
    simpl. by rewrite (productIds_alter (λ item, quantity item + 1)%Q).
  - unfold decreaseQuantity.
    destruct (findItem pid (items c)) as [[i x]|]; [|done].
    simpl. destruct (Qle_bool _ 0); simpl.
    + apply productIds_others.
      by rewrite (productIds_alter (λ item, quantity item - 1)%Q).
    + by rewrite (productIds_alter (λ item, quantity item - 1)%Q).
  - apply NoDup_nil_2.
Qed.

Lemma one_line_per_product_witness :
  unique_products (applyMutation (AddProduct widget) cart_p2).
Proof.
  apply (one_line_per_product (AddProduct widget) cart_p2).
  - by intros d [= <-].
  - unfold unique_products. simpl. apply NoDup_singleton.
Defined.

(** ** [updateQuantity] and [removeProduct] *)

(** C4: [updateQuantity] with a quantity of 0 or less is [removeProduct]:
    the two methods return the same cart, items and totals alike, and the
    two statics return the same saved cart and leave the same store. *)
Theorem updateQuantity_nonpositive_is_removeProduct
    (uid pid : ObjectId) (q : Q) (c : Cart) (st : Store) :
  (q <= 0)%Q →
  updateQuantity pid q c = removeProduct pid c ∧
  updateProductQuantity uid pid q st = removeProductFromCart uid pid st.
Proof.
  intros Hq%Qle_bool_iff.
  assert (Hm : ∀ c', updateQuantity pid q c' = removeProduct pid c').
  { intros c'. unfold updateQuantity. by rewrite Hq. }
  split; [apply Hm|].
  assert (Hu := applyStatic_unfold (UpdateQuantity pid q) uid st).
  assert (Hr := applyStatic_unfold (RemoveProduct pid) uid st).
  simpl in Hu, Hr. by rewrite Hu, Hr, Hm.
Qed.

Lemma updateQuantity_nonpositive_is_removeProduct_witness :
  updateQuantity "p1" 0 cart_p1_twice = removeProduct "p1" cart_p1_twice ∧
  updateProductQuantity "u1" "p1" 0 ∅ = removeProductFromCart "u1" "p1" ∅.
Proof.
  apply (updateQuantity_nonpositive_is_removeProduct "u1" "p1" 0
           cart_p1_twice ∅).
  apply Qle_refl.
Defined.

(** ** [decreaseQuantity] *)

Lemma decreaseQuantity_found (pid : ObjectId) (c : Cart) l1 x l2 :
  items c = l1 ++ x :: l2 →
  Forall (λ y, productId y ≠ pid) l1 →
  productId x = pid →
  decreaseQuantity pid c =
  let this' := setItems (l1 ++ setQuantity (quantity x - 1) x :: l2) c in
  if Qle_bool (quantity x - 1) 0 then removeProduct pid this'
  else calculateTotals this'.
Proof.
  intros Hc Hl1 Hx. unfold decreaseQuantity.
  rewrite Hc, (findItem_middle _ l1 l2 x Hl1 Hx).
  by rewrite (alter_middle (λ item, setQuantity (quantity item - 1) item)).
Qed.





(** ** [clearCart] *)

(** C6: [clearCart] leaves no items and both totals at 0, whatever the cart
    was, in the cart the method returns and in the cart the static saves. *)
Theorem clearCart_empties (c : Cart) (uid : ObjectId) (st : Store) :
  (items (clearCart c) = [] ∧
   totalAmount (clearCart c) = 0%Q ∧ totalItems (clearCart c) = 0%Q) ∧
  (items (clearUserCart uid st).1 = [] ∧
   totalAmount (clearUserCart uid st).1 = 0%Q ∧
   totalItems (clearUserCart uid st).1 = 0%Q).
Proof.
  split; [done|].
  assert (Hu := applyStatic_unfold ClearCart uid st).
  simpl in Hu. by rewrite Hu.
Qed.

(** ** The lines of the other products *)

Lemma others_alter (pid : ObjectId) (f : CartItem → CartItem)
    (its : list CartItem) i x :
  findItem pid its = Some (i, x) →
  productId (f x) = pid →
  others pid (alter f i its) = others pid its.
Proof.
  intros (l1 & l2 & -> & -> & Hx & _)%findItem_Some_split Hfx.
  by rewrite alter_middle, !others_middle.
Qed.

Lemma others_others (pid : ObjectId) (its : list CartItem) :
  others pid (others pid its) = others pid its.
Proof. apply others_id, others_Forall. Qed.

Lemma findItem_productId (pid : ObjectId) (its : list CartItem) i x :
  findItem pid its = Some (i, x) → productId x = pid.
Proof. by intros (l1 & l2 & _ & _ & Hx & _)%findItem_Some_split. Qed.

(** C10: a mutation aimed at product [pid] leaves the lines of every other
    product as they were. When it acts on a line that is there
    ([addProduct] on a product that [find] finds, and [removeProduct],
    [updateQuantity], [increaseQuantity], [decreaseQuantity] always), the
    sequence of lines whose [productId] differs from [pid] (all six fields
    of each, and their order) is the same before and after. When
    [addProduct] finds no line, every line of the cart stays as it was and
    in place, and the pushed line comes after them. *)
Theorem other_lines_untouched (m : Mutation) (pid : ObjectId) (c : Cart) :
  target m = Some pid →
  (on_existing_line m c →
   others pid (items (applyMutation m c)) = others pid (items c)) ∧
  (∀ d, m = AddProduct d →
        Forall (λ y, productId y ≠ pid) (items c) →
        items (applyMutation m c) = items c ++ [newLine d]).
Proof.
  intros Htarget. split.
  - revert Htarget. destruct m as [d|p|p q|p|p|]; simpl; intros [= <-].
    + intros [[i x] Hfind]. rewrite Hfind. simpl.
      apply (others_alter _ _ _ _ _ Hfind),
        (findItem_productId _ _ _ _ Hfind).
    + intros _. apply others_others.
    + intros _. unfold updateQuantity.
      destruct (Qle_bool q 0); [apply others_others|].
      destruct (findItem p (items c)) as [[i x]|] eqn:Hfind; [|done].
      apply (others_alter _ _ _ _ _ Hfind),
        (findItem_productId _ _ _ _ Hfind).
    + intros _. unfold increaseQuantity.
      destruct (findItem p (items c)) as [[i x]|] eqn:Hfind; [|done].
      apply (others_alter _ _ _ _ _ Hfind),
        (findItem_productId _ _ _ _ Hfind).
    + intros _. unfold decreaseQuantity.
      destruct (findItem p (items c)) as [[i x]|] eqn:Hfind; [|done].
      simpl. destruct (Qle_bool _ 0); simpl.
      * fold (others p (alter (λ item, setQuantity (quantity item - 1) item)
                          i (items c))).
        rewrite others_others.
        apply (others_alter _ _ _ _ _ Hfind),
          (findItem_productId _ _ _ _ Hfind).
      * apply (others_alter _ _ _ _ _ Hfind),
          (findItem_productId _ _ _ _ Hfind).
  - intros d -> Hc. revert Htarget Hc. simpl. intros [= <-] Hc.
    by apply addProduct_new.
Qed.

Lemma other_lines_untouched_witness :
  others "p1" (items (applyMutation (DecreaseQuantity "p1") cart_p2_p1)) =
  others "p1" (items cart_p2_p1).
Proof.
  apply (proj1 (other_lines_untouched (DecreaseQuantity "p1") "p1" cart_p2_p1
                  eq_refl)).
  exact I.
Defined.

(** ** The quantities of the lines *)

Lemma is_integer_plus_1 (q : Q) : is_integer q → is_integer (q + 1).
Proof.
  intros [z Hz]. exists (z + 1)%Z. rewrite inject_Z_plus, Hz. reflexivity.
Qed.

Lemma is_integer_minus_1 (q : Q) : is_integer q → is_integer (q - 1).
Proof.
  intros [z Hz]. exists (z - 1)%Z. unfold Z.sub.
  rewrite inject_Z_plus, Hz. reflexivity.
Qed.

Lemma integer_positive_ge_1 (q : Q) :
  is_integer q → (0 < q)%Q → (1 <= q)%Q.
Proof.
  intros [z Hz] Hpos. rewrite Hz in *.
  change 0%Q with (inject_Z 0) in Hpos. change 1%Q with (inject_Z 1).
  rewrite <- Zlt_Qlt in Hpos. rewrite <- Zle_Qle. lia.
Qed.

Lemma three_halves_not_integer : ¬ is_integer (3 # 2).
Proof.
  intros [z Hz]. unfold Qeq in Hz. simpl in Hz. lia.
Qed.

Lemma Qle_bool_false (a b : Q) : Qle_bool a b = false → (b < a)%Q.
Proof.
  intros H. apply Qnot_le_lt. intros Hle%Qle_bool_iff. congruence.
Qed.

Section QuantityInvariant.

Context (P : Q → Prop).

Let lines_ok (its : list CartItem) : Prop :=
  Forall (λ item, P (quantity item)) its.

Lemma lines_ok_others (pid : ObjectId) (its : list CartItem) :
  lines_ok its → lines_ok (others pid its).
Proof.
  unfold lines_ok. intros H. apply Forall_forall.
  intros y [_ Hy]%list_elem_of_filter.
  by apply (proj1 (Forall_forall _ _) H).
Qed.

(** A write of [g item] to the quantity of the line found keeps the lines
    valid when the new quantity is valid. *)
Lemma lines_ok_alter (pid : ObjectId) (g : CartItem → Q)
    (its : list CartItem) i x :
  findItem pid its = Some (i, x) →
  lines_ok its → P (g x) →
  lines_ok (alter (λ item, setQuantity (g item) item) i its).
Proof.
  intros (l1 & l2 & -> & -> & _ & _)%findItem_Some_split H Hx.
  rewrite alter_middle. unfold lines_ok in *.
  apply Forall_app in H as [H1 H2]. apply Forall_cons in H2 as [_ H2].
  apply Forall_app. split; [done|]. by apply Forall_cons.
Qed.

(** The removal after a write that made the quantity 0 or less: the line
    written to goes away with the other lines of the product. *)
Lemma lines_ok_alter_others (pid : ObjectId) (g : CartItem → Q)
    (its : list CartItem) i x :
  findItem pid its = Some (i, x) →
  lines_ok its →
  lines_ok (others pid (alter (λ item, setQuantity (g item) item) i its)).
Proof.
  intros Hfind H.
  rewrite (others_alter _ _ _ _ _ Hfind)
    by apply (findItem_productId _ _ _ _ Hfind).
  by apply lines_ok_others.
Qed.

Lemma findItem_lines_ok (pid : ObjectId) (its : list CartItem) i x :
  findItem pid its = Some (i, x) → lines_ok its → P (quantity x).
Proof.
  intros (l1 & l2 & -> & _)%findItem_Some_split H.
  unfold lines_ok in H.
  apply Forall_app in H as [_ H]. by apply Forall_cons in H as [H _].
Qed.

(** What a predicate on quantities needs in order to be kept by every
    mutation whose numeric argument satisfies it. *)
Lemma lines_ok_applyMutation (m : Mutation) (c : Cart) :
  P 1 →
  (∀ q, P q → P (q + 1)) →
  (∀ q, P q → (0 < q - 1)%Q → P (q - 1)) →
  (∀ pid q, m = UpdateQuantity pid q → (0 < q)%Q → P q) →
  lines_ok (items c) → lines_ok (items (applyMutation m c)).
Proof.
  intros P1 Pinc Pdec Parg Hc.
  destruct m as [d|pid|pid q|pid|pid|]; simpl.
  - destruct (findItem (pd_productId d) (items c)) as [[i x]|] eqn:Hfind;
      simpl.
    + apply (lines_ok_alter _ (λ item, quantity item + 1)%Q _ _ _ Hfind Hc).
      apply Pinc, (findItem_lines_ok _ _ _ _ Hfind Hc).
    + apply Forall_app. split; [done|]. by apply Forall_singleton.
  - by apply lines_ok_others.
  - unfold updateQuantity. destruct (Qle_bool q 0) eqn:Hq.
    + by apply lines_ok_others.
    + destruct (findItem pid (items c)) as [[i x]|] eqn:Hfind; [|done].
      apply (lines_ok_alter _ (λ _, q) _ _ _ Hfind Hc).
      apply (Parg pid q eq_refl), Qle_bool_false, Hq.
  - unfold increaseQuantity.
    destruct (findItem pid (items c)) as [[i x]|] eqn:Hfind; [|done].
    apply (lines_ok_alter _ (λ item, quantity item + 1)%Q _ _ _ Hfind Hc).
    apply Pinc, (findItem_lines_ok _ _ _ _ Hfind Hc).
  - unfold decreaseQuantity.
    destruct (findItem pid (items c)) as [[i x]|] eqn:Hfind; [|done].
    simpl. destruct (Qle_bool (quantity x - 1) 0) eqn:Hq; simpl.
    + apply (lines_ok_alter_others _ (λ item, quantity item - 1)%Q
               _ _ _ Hfind Hc).
    + apply (lines_ok_alter _ (λ item, quantity item - 1)%Q _ _ _ Hfind Hc).
      apply Pdec; [apply (findItem_lines_ok _ _ _ _ Hfind Hc)|].
      apply Qle_bool_false, Hq.
  - apply Forall_nil_2.
Qed.

End QuantityInvariant.

Lemma quantity_ok_1 : quantity_ok 1.
Proof. split; [by exists 1%Z | apply Qle_refl]. Qed.

(** C7, as stated, fails: [updateQuantity] stores the number it is given.
    From a cart whose only line has quantity 1, setting the quantity to
    3/2 leaves a line whose quantity is not an integer. *)
Lemma fractional_quantity_is_stored :
  quantities_ok cart_p1_once ∧
  items (applyMutation (UpdateQuantity "p1" (3 # 2)) cart_p1_once) =
    [mkCartItem "p1" "Widget" 1000 (3 # 2) "" ""] ∧
  ¬ quantities_ok (applyMutation (UpdateQuantity "p1" (3 # 2)) cart_p1_once).
Proof.
  split_and!.
  - apply Forall_singleton, quantity_ok_1.
  - reflexivity.
  - intros H. apply Forall_singleton in H as [H _].
    by apply three_halves_not_integer.
Qed.

(** C7, amended: when the quantity passed to [updateQuantity] is an integer,
    every mutation takes a cart whose lines all have an integer quantity of
    at least 1 to such a cart; and for any numeric argument, every mutation
    takes a cart whose lines all have a quantity above 0 to such a cart, so
    a line with quantity 0 or less is never left behind. *)
Theorem quantities_stay_valid (m : Mutation) (c : Cart) :
  (quantities_ok c → integer_argument m →
   quantities_ok (applyMutation m c)) ∧
  (quantities_positive c → quantities_positive (applyMutation m c)).
Proof.
  split.
  - intros Hc Hm. apply (lines_ok_applyMutation quantity_ok); try done.
    + apply quantity_ok_1.
    + intros q [Hi Hq]. split; [by apply is_integer_plus_1 | lra].
    + intros q [Hi Hq] Hpos.
      split; [by apply is_integer_minus_1|].
      apply integer_positive_ge_1; [by apply is_integer_minus_1 | done].
    + intros pid q -> Hpos. simpl in Hm.
      split; [done | by apply integer_positive_ge_1].
  - intros Hc. apply (lines_ok_applyMutation (λ q, 0 < q)%Q); try done.
    intros q Hq. lra.
Qed.

Lemma quantities_stay_valid_witness :
  quantities_ok (applyMutation (UpdateQuantity "p1" 5) cart_p1_once) ∧
  quantities_positive
    (applyMutation (UpdateQuantity "p1" (3 # 2)) cart_p1_once).
Proof.
  split.
  - apply (proj1 (quantities_stay_valid (UpdateQuantity "p1" 5) cart_p1_once)).
    + apply Forall_singleton, quantity_ok_1.
    + by exists 5%Z.
  - apply (proj2 (quantities_stay_valid (UpdateQuantity "p1" (3 # 2))
                    cart_p1_once)).
    apply Forall_singleton. reflexivity.
Defined.

(** ** The routes and the existence of a cart *)

Lemma falsy_Some (s : string) : s ≠ "" → falsy (Some s) = false.
Proof. intros H. simpl. by apply bool_decide_eq_false_2. Qed.







(** C9: the create route, for a user id that is present in the body. If
    the store holds a cart for the user, the route answers 409 Conflict,
    and the store is left as it was; if it holds none, the route answers
    201 with a new cart for the user that has no items and totals 0, and
    the store holds that cart afterwards. *)
Theorem create_conflicts_or_creates (uid : ObjectId) (st : Store) :
  uid ≠ "" →
  (∀ c, st !! uid = Some c →
        post_create (Some uid) st =
        (mkResponse 409 false "Cart already exists for this user" (Some c),
         st)) ∧
  (st !! uid = None →
   post_create (Some uid) st =
   (mkResponse 201 true "Cart created successfully"
      (Some (mkCart uid [] 0 0)),
    <[uid := mkCart uid [] 0 0]> st)).
Proof.
  intros Huid. unfold post_create. rewrite (falsy_Some uid Huid). simpl.
  rewrite bind_run. unfold getUserCart, findOne. simpl.
  split.
  - by intros c ->.
  - intros Hst. rewrite Hst, bind_run.
    by rewrite (getOrCreateCart_created _ _ Hst).
Qed.

Lemma create_conflicts_or_creates_witness :
  post_create (Some "u1") {["u1" := cart_p1_once]} =
    (mkResponse 409 false "Cart already exists for this user"
       (Some cart_p1_once), {["u1" := cart_p1_once]}) ∧
  post_create (Some "u1") ∅ =
    (mkResponse 201 true "Cart created successfully"
       (Some (mkCart "u1" [] 0 0)), <["u1" := mkCart "u1" [] 0 0]> ∅).
Proof.
  split.
  - apply (proj1 (create_conflicts_or_creates "u1" {["u1" := cart_p1_once]}
                    ltac:(discriminate))).
    reflexivity.
  - apply (proj2 (create_conflicts_or_creates "u1" ∅ ltac:(discriminate))).
    reflexivity.
Defined.

(** ** The scenarios of the specification, run on the model *)

Example scenario_add_to_empty :
  addProduct widget (mkCart "u1" [] 0 0) =
  mkCart "u1" [mkCartItem "p1" "Widget" 1000 1 "" ""] 1000 1.
Proof. reflexivity. Qed.

Example scenario_increase :
  increaseQuantity "p1" cart_p1_twice =
  mkCart "u1" [mkCartItem "p1" "Widget" 500 3 "" ""] 1500 3.
Proof. reflexivity. Qed.

Example scenario_decrease_last :
  decreaseQuantity "p1" cart_p1_once = mkCart "u1" [] 0 0.
Proof. reflexivity. Qed.

Example scenario_get_missing_cart :
  (get_cart "u1" ∅).1 =
  mkResponse 404 false "Cart not found for this user" None.
Proof. reflexivity. Qed.

(** ** The store under the statics *)

Lemma applyMutation_userId (m : Mutation) (c : Cart) :
  userId (applyMutation m c) = userId c.
Proof.
  destruct m as [d|pid|pid q|pid|pid|]; simpl.
  - by destruct (findItem (pd_productId d) (items c)) as [[i x]|].
  - done.
  - unfold updateQuantity. destruct (Qle_bool q 0); [done|].
    by destruct (findItem pid (items c)) as [[i x]|].
  - unfold increaseQuantity. by destruct (findItem pid (items c)) as [[i x]|].
  - unfold decreaseQuantity.
    destruct (findItem pid (items c)) as [[i x]|]; [|done].
    simpl. by destruct (Qle_bool _ 0).
  - done.
Qed.

Lemma getOrCreateCart_cases (uid : ObjectId) (st : Store) :
  (∃ c, st !! uid = Some c ∧ getOrCreateCart uid st = (c, st)) ∨
  (st !! uid = None ∧
   getOrCreateCart uid st =
   (mkCart uid [] 0 0, <[uid := mkCart uid [] 0 0]> st)).
Proof.
  destruct (st !! uid) as [c|] eqn:Hst.
  - left. exists c. split; [done|]. by apply getOrCreateCart_found.
  - right. split; [done|]. by apply getOrCreateCart_created.
Qed.

(** X1: [getOrCreateCart] creates at most once. After a call the store
    holds the returned cart under the user's id, any second call returns
    that same cart and leaves the store as the first call left it, and the
    carts of the other users are as before. *)
Theorem getOrCreateCart_creates_once (uid : ObjectId) (st : Store) :
  let cart := (getOrCreateCart uid st).1 in
  let st1 := (getOrCreateCart uid st).2 in
  st1 !! uid = Some cart ∧
  getOrCreateCart uid st1 = (cart, st1) ∧
  (∀ c, st !! uid = Some c → cart = c ∧ st1 = st) ∧
  (∀ other, other ≠ uid → st1 !! other = st !! other).
Proof.
  simpl. destruct (getOrCreateCart_cases uid st) as [(c & Hst & ->)|[Hst ->]];
    simpl.
  - split_and!; [done| by apply getOrCreateCart_found | |done].
    intros c' Hc'. split; congruence.
  - split_and!.
    + apply lookup_insert_eq.
    + apply getOrCreateCart_found, lookup_insert_eq.
    + intros c Hc. congruence.
    + intros other Hne. by apply lookup_insert_ne.
Qed.

Lemma getOrCreateCart_creates_once_witness :
  (getOrCreateCart "u1" {["u1" := cart_p1_once]}).1 = cart_p1_once ∧
  (getOrCreateCart "u1" {["u1" := cart_p1_once]}).2 = {["u1" := cart_p1_once]}.
Proof.
  apply (proj1 (proj2 (proj2 (getOrCreateCart_creates_once "u1"
                                {["u1" := cart_p1_once]}))) cart_p1_once).
  reflexivity.
Defined.

(** What a static does to a well-formed store: one write, under the id of
    the user it was called for. *)
Lemma applyStatic_store (m : Mutation) (uid : ObjectId) (st : Store) :
  store_wf st →
  userId (applyStatic m uid st).1 = uid ∧
  (applyStatic m uid st).2 = <[uid := (applyStatic m uid st).1]> st.
Proof.
  intros Hwf. rewrite applyStatic_unfold, save_result. simpl.
  rewrite applyMutation_userId.
  destruct (getOrCreateCart_cases uid st) as [(c & Hst & ->)|[Hst ->]];
    simpl.
  - by rewrite (Hwf uid c Hst).
  - split; [done|]. apply insert_insert_eq.
Qed.

(** What a static returns is saved, with totals that agree with its
    lines. *)
Lemma applyStatic_saved (m : Mutation) (uid : ObjectId) (st : Store) :
  totals_ok (applyStatic m uid st).1 ∧
  (applyStatic m uid st).2 !! userId (applyStatic m uid st).1 =
  Some (applyStatic m uid st).1.
Proof.
  rewrite applyStatic_unfold, save_result. simpl.
  split; [apply calculateTotals_ok | apply lookup_insert_eq].
Qed.

(** X2: a static writes one cart and only that one. On a store that keeps
    every cart under its own [userId], a static called for user [uid]
    returns a cart of that user, the store holds exactly that cart for the
    user afterwards, the cart of every other user is the one the store held
    before (none stays none), and every cart is still stored under its own
    [userId]. *)
Theorem static_writes_only_own_cart
    (m : Mutation) (uid : ObjectId) (st : Store) :
  store_wf st →
  let saved := (applyStatic m uid st).1 in
  let st' := (applyStatic m uid st).2 in
  userId saved = uid ∧
  st' !! uid = Some saved ∧
  (∀ other, other ≠ uid → st' !! other = st !! other) ∧
  store_wf st'.
Proof.
  intros Hwf. simpl.
  destruct (applyStatic_store m uid st Hwf) as [Hid ->].
  split_and!; [done| apply lookup_insert_eq | |].
  - intros other Hne. by apply lookup_insert_ne.
  - by apply map_Forall_insert_2.
Qed.

Lemma store_two_users_wf : store_wf store_two_users.
Proof.
  apply map_Forall_insert_2; [done|].
  by apply map_Forall_singleton.
Qed.

Lemma static_writes_only_own_cart_witness :
  (applyStatic ClearCart "u1" store_two_users).2 !! "u2" =
  store_two_users !! "u2".
Proof.
  apply (proj1 (proj2 (proj2 (static_writes_only_own_cart ClearCart "u1"
                                store_two_users store_two_users_wf))) "u2").
  discriminate.
Defined.

(** X3: no static ever deletes a cart. The users with a cart after a static
    called for [uid] are those who had one before, and [uid]. *)
Theorem static_never_deletes_a_cart
    (m : Mutation) (uid : ObjectId) (st : Store) :
  store_wf st →
  dom (applyStatic m uid st).2 = {[uid]} ∪ dom st.
Proof.
  intros Hwf. destruct (applyStatic_store m uid st Hwf) as [_ ->].
  apply dom_insert_L.
Qed.

Lemma static_never_deletes_a_cart_witness :
  dom (applyStatic (RemoveProduct "p1") "u1" store_two_users).2 =
  {["u1"]} ∪ dom store_two_users.
Proof.
  apply (static_never_deletes_a_cart (RemoveProduct "p1") "u1"
           store_two_users store_two_users_wf).
Defined.

(** ** The routes *)

(** X4: the reading routes never create a cart and never write. Each of
    [GET /:userId], [GET /:userId/items] and [GET /:userId/summary] leaves
    the store as it was; without a cart for the user each answers 404 with
    no data; with a cart each answers 200 with the cart, with its items and
    their number, and with its summary. *)
Theorem reading_routes_never_write (uid : ObjectId) (st : Store) :
  ((get_cart uid st).2 = st ∧ (get_items uid st).2 = st ∧
   (get_summary uid st).2 = st) ∧
  (st !! uid = None →
   (get_cart uid st).1 =
     mkResponse 404 false "Cart not found for this user" None ∧
   (get_items uid st).1 =
     mkReply 404 false "Cart not found for this user" None ∧
   (get_summary uid st).1 =
     mkReply 404 false "Cart not found for this user" None) ∧
  (∀ c, st !! uid = Some c →
     (get_cart uid st).1 =
       mkResponse 200 true "Cart retrieved successfully" (Some c) ∧
     (get_items uid st).1 =
       mkReply 200 true "Cart items retrieved successfully"
         (Some (items c, length (items c))) ∧
     (get_summary uid st).1 =
       mkReply 200 true "Cart summary retrieved successfully"
         (Some (getCartSummary c))).
Proof.
  unfold get_cart, get_items, get_summary. rewrite !bind_run.
  unfold getUserCart, findOne. simpl.
  split_and!.
  - by destruct (st !! uid).
  - by destruct (st !! uid).
  - by destruct (st !! uid).
  - by intros ->.
  - by intros c ->.
Qed.

Lemma reading_routes_never_write_witness :
  (get_cart "u3" store_two_users).1 =
    mkResponse 404 false "Cart not found for this user" None ∧
  (get_items "u1" store_two_users).1 =
    mkReply 200 true "Cart items retrieved successfully"
      (Some ([mkCartItem "p1" "Widget" 1000 1 "" ""], 1)).
Proof.
  split.
  - apply (proj1 (proj2 (reading_routes_never_write "u3" store_two_users))).
    reflexivity.
  - apply (proj2 (proj2 (reading_routes_never_write "u1" store_two_users))
             cart_p1_once).
    reflexivity.
Defined.

(** A mutating request is either turned down by the validation of its
    fields, before the store is touched, or handed to one static for the
    user it addresses, whose saved cart is the answer. *)
Lemma handle_cases (r : MutatingRequest) (st : Store) :
  (∃ msg, handle r st = (mkResponse 400 false msg None, st)) ∨
  (∃ m code msg,
     (code = 200 ∨ code = 201) ∧
     handle r st =
     (mkResponse code true msg (Some (applyStatic m (addressee r) st).1),
      (applyStatic m (addressee r) st).2)).
Proof.
  destruct r as [u p n pr i c|uid p q|uid p|uid p|uid p|uid]; simpl.
  - unfold post_add.
    destruct (falsy u || falsy p || falsy n || falsy_field pr);
      [left; eauto|].
    right. eexists (AddProduct _), 201, _. split; [by right|].
    by rewrite bind_run.
  - unfold put_quantity. destruct q as [q|]; [|left; eauto].
    destruct (falsy p); [left; eauto|].
    right. exists (UpdateQuantity (default "" p) q), 200. eexists.
    split; [by left|]. by rewrite bind_run.
  - unfold patch_increase. destruct (falsy p); [left; eauto|].
    right. exists (IncreaseQuantity (default "" p)), 200. eexists.
    split; [by left|]. by rewrite bind_run.
  - unfold patch_decrease. destruct (falsy p); [left; eauto|].
    right. exists (DecreaseQuantity (default "" p)), 200. eexists.
    split; [by left|]. by rewrite bind_run.
  - unfold delete_remove. destruct (falsy p); [left; eauto|].
    right. exists (RemoveProduct (default "" p)), 200. eexists.
    split; [by left|]. by rewrite bind_run.
  - right. exists ClearCart, 200. eexists.
    split; [by left|]. unfold delete_clear. by rewrite bind_run.
Qed.

(** X5: the outcome of a mutating route ([POST /add],
    [PUT /:userId/quantity], [PATCH /:userId/increase],
    [PATCH /:userId/decrease], [DELETE /:userId/remove],
    [DELETE /:userId/clear]). The answer is never 404. Either it is 400
    with no data and the store is as it was, or it is a success (200 or
    201) carrying a cart whose totals are the sums over its items and which
    the store now holds under that cart's [userId]; on a store that keeps
    every cart under its own [userId] that cart belongs to the addressed
    user and no other user's cart has changed. *)
Theorem mutating_route_outcome (r : MutatingRequest) (st : Store) :
  let resp := (handle r st).1 in
  let st' := (handle r st).2 in
  status resp ≠ 404 ∧
  ((status resp = 400 ∧ success resp = false ∧ data resp = None ∧ st' = st) ∨
   ((status resp = 200 ∨ status resp = 201) ∧ success resp = true ∧
    ∃ cart,
      data resp = Some cart ∧ totals_ok cart ∧
      st' !! userId cart = Some cart ∧
      (store_wf st →
       userId cart = addressee r ∧
       ∀ other, other ≠ addressee r → st' !! other = st !! other))).
Proof.
  simpl.
  destruct (handle_cases r st) as [[msg ->]|(m & code & msg & Hcode & ->)];
    simpl.
  - split; [done|]. by left.
  - split; [by destruct Hcode as [-> | ->]|].
    right. split_and!; [done..|].
    exists (applyStatic m (addressee r) st).1.
    destruct (applyStatic_saved m (addressee r) st) as [Hok Hst].
    split_and!; [done..|].
    intros Hwf.
    destruct (applyStatic_store m (addressee r) st Hwf) as [Hid Hst'].
    split; [done|]. intros other Hne.
    rewrite Hst'. by apply lookup_insert_ne.
Qed.

Lemma mutating_route_outcome_witness :
  (handle (DeleteClear "u1") store_two_users).2 !! "u2" =
  store_two_users !! "u2".
Proof.
  destruct (mutating_route_outcome (DeleteClear "u1") store_two_users)
    as [_ [(H400 & _)|(_ & _ & cart & _ & _ & _ & Hwf)]].
  - discriminate H400.
  - apply (proj2 (Hwf store_two_users_wf) "u2"). discriminate.
Defined.

Lemma hexLower_idem (ch : ascii) : hexLower (hexLower ch) = hexLower ch.
Proof. by destruct ch as [[] [] [] [] [] [] [] []]. Qed.

Lemma toObjectId_idem (s : string) : toObjectId (toObjectId s) = toObjectId s.
Proof.
  induction s as [|ch s IH]; simpl; [done|]. by rewrite hexLower_idem, IH.
Qed.

Lemma addProduct_has_line (d : ProductData) (c : Cart) :
  ∃ x, x ∈ items (addProduct d c) ∧
       toObjectId (productId x) = toObjectId (pd_productId d).
Proof.
  destruct (findItem (pd_productId d) (items c)) as [[i x]|] eqn:Hfind.
  - destruct (findItem_Some_split _ _ _ _ Hfind)
      as (l1 & l2 & Hc & _ & Hx & Hl1).
    exists (setQuantity (quantity x + 1) x). split; [|by simpl; rewrite Hx].
    rewrite (addProduct_existing d c l1 x l2 Hc Hl1 Hx).
    apply elem_of_app. right. apply list_elem_of_here.
  - apply findItem_None in Hfind. rewrite (addProduct_new d c Hfind).
    eexists. split; [apply elem_of_app; right; apply list_elem_of_here|].
    simpl. apply toObjectId_idem.
Qed.

Lemma falsy_field_true (x : NumberField) :
  falsy_field x = true ↔
  x = FieldUndefined ∨ (∃ q, x = FieldNumber q ∧ (q == 0)%Q) ∨
  (∃ read, x = FieldString "" read).
Proof.
  destruct x as [|q|s read]; simpl.
  - split; [by left|done].
  - rewrite Qeq_bool_iff. split; [by right; left; eauto|].
    by intros [?|[(q' & [= <-] & ?)|(? & ?)]].
  - rewrite bool_decide_eq_true. split.
    + intros ->. right. right. by eexists.
    + by intros [?|[(? & ? & ?)|(? & [= -> _])]].
Qed.

(** X6: [POST /add]. A request in which [userId], [productId] or [name] is
    missing or empty, or in which [price] is missing, the number 0 or the
    empty string, is answered 400 and the store is left as it was. The test
    is on the field as it arrived: a price that is a string and not empty
    passes it whatever it reads as, so the string ["0"] is accepted where
    the number 0 is turned down. A request that passes the test with a price
    that reads as at least 0 is answered 201 with the cart that
    [addProductToCart] saved for the user, in which the product has a line
    at the price read. *)
Theorem post_add_outcome
    (body_userId body_productId body_name : option string)
    (body_price : NumberField) (body_image body_category : option string)
    (st : Store) :
  let resp := (post_add body_userId body_productId body_name body_price
                 body_image body_category st).1 in
  let st' := (post_add body_userId body_productId body_name body_price
                body_image body_category st).2 in
  (falsy body_userId = true ∨ falsy body_productId = true ∨
   falsy body_name = true ∨ body_price = FieldUndefined ∨
   (∃ q, body_price = FieldNumber q ∧ (q == 0)%Q) ∨
   (∃ read, body_price = FieldString "" read) →
   resp = mkResponse 400 false
            "userId, productId, name, and price are required" None ∧
   st' = st) ∧
  (∀ uid pid nm,
     body_userId = Some uid → uid ≠ "" →
     body_productId = Some pid → pid ≠ "" →
     body_name = Some nm → nm ≠ "" →
     falsy_field body_price = false → (0 <= toNumber body_price)%Q →
     let productData :=
       mkProductData pid nm (toNumber body_price)
         (Some (orEmpty body_image)) (Some (orEmpty body_category)) in
     resp = mkResponse 201 true "Product added to cart successfully"
              (Some (addProductToCart uid productData st).1) ∧
     st' = (addProductToCart uid productData st).2 ∧
     ∃ x, x ∈ items (addProductToCart uid productData st).1 ∧
          toObjectId (productId x) = toObjectId pid) ∧
  (∀ s read, s ≠ "" → falsy_field (FieldString s read) = false).
Proof.
  simpl. split_and!.
  - intros H.
    assert (Hbad : falsy body_userId || falsy body_productId
                   || falsy body_name || falsy_field body_price = true).
    { rewrite !orb_true_iff, falsy_field_true. tauto. }
    unfold post_add. by rewrite Hbad.
  - intros uid pid nm -> Huid -> Hpid -> Hnm Hprice _.
    unfold post_add. rewrite !falsy_Some by done. rewrite Hprice. simpl.
    rewrite bind_run. simpl. split_and!; [done..|].
    assert (Hu := applyStatic_unfold
                    (AddProduct (mkProductData pid nm (toNumber body_price)
                       (Some (orEmpty body_image))
                       (Some (orEmpty body_category)))) uid st).
    simpl in Hu. rewrite Hu, save_result.
    exact (addProduct_has_line
             (mkProductData pid nm (toNumber body_price)
                (Some (orEmpty body_image)) (Some (orEmpty body_category)))
             (getOrCreateCart uid st).1).
  - intros s read Hs. simpl. by apply bool_decide_eq_false_2.
Qed.

Lemma post_add_outcome_witness :
  ((post_add (Some "u1") (Some "p9") (Some "Free sample") (FieldNumber 0)
      None None store_two_users).1 =
     mkResponse 400 false
       "userId, productId, name, and price are required" None ∧
   (post_add (Some "u1") (Some "p9") (Some "Free sample") (FieldNumber 0)
      None None store_two_users).2 = store_two_users) ∧
  (post_add (Some "u1") (Some "p9") (Some "Free sample")
     (FieldString "0" 0) None None store_two_users).1 =
    mkResponse 201 true "Product added to cart successfully"
      (Some (addProductToCart "u1"
               (mkProductData "p9" "Free sample" 0 (Some "") (Some ""))
               store_two_users).1).
Proof.
  split.
  - apply (proj1 (post_add_outcome (Some "u1") (Some "p9")
                    (Some "Free sample") (FieldNumber 0) None None
                    store_two_users)).
    right. right. right. right. left. exists 0%Q. split; reflexivity.
  - apply (proj1 (proj2 (post_add_outcome (Some "u1") (Some "p9")
                           (Some "Free sample") (FieldString "0" 0) None None
                           store_two_users)) "u1" "p9" "Free sample");
      try reflexivity; try discriminate.
Defined.

(** X7: the routes see what a static saved. On a store that keeps every
    cart under its own [userId], after any static for user [uid] the
    [GET /:userId] route answers 200 with the cart the static returned, and
    the create route answers 409 Conflict with that cart; neither changes
    the store. *)
Theorem saved_cart_is_served
    (m : Mutation) (uid : ObjectId) (st : Store) :
  store_wf st → uid ≠ "" →
  let saved := (applyStatic m uid st).1 in
  let st' := (applyStatic m uid st).2 in
  get_cart uid st' =
    (mkResponse 200 true "Cart retrieved successfully" (Some saved), st') ∧
  post_create (Some uid) st' =
    (mkResponse 409 false "Cart already exists for this user" (Some saved),
     st').
Proof.
  intros Hwf Huid. simpl.
  destruct (applyStatic_store m uid st Hwf) as [Hid Hst'].
  assert (Hl : (applyStatic m uid st).2 !! uid = Some (applyStatic m uid st).1).
  { rewrite Hst' at 1. apply lookup_insert_eq. }
  split.
  - unfold get_cart. rewrite bind_run. unfold getUserCart, findOne. simpl.
    by rewrite Hl.
  - unfold post_create. rewrite (falsy_Some uid Huid). simpl.
    rewrite bind_run. unfold getUserCart, findOne. simpl. by rewrite Hl.
Qed.

Lemma saved_cart_is_served_witness :
  get_cart "u1" (applyStatic (IncreaseQuantity "p1") "u1" store_two_users).2 =
  (mkResponse 200 true "Cart retrieved successfully"
     (Some (applyStatic (IncreaseQuantity "p1") "u1" store_two_users).1),
   (applyStatic (IncreaseQuantity "p1") "u1" store_two_users).2).
Proof.
  apply (saved_cart_is_served (IncreaseQuantity "p1") "u1" store_two_users
           store_two_users_wf).
  discriminate.
Defined.

(** X8: the create route creates at most once. Whatever the first
    [POST /create] for a user answered, a second one answers 409 Conflict
    with the cart the store holds for the user, and changes nothing. *)
Theorem second_create_conflicts (uid : ObjectId) (st : Store) :
  uid ≠ "" →
  let st1 := (post_create (Some uid) st).2 in
  ∃ cart,
    st1 !! uid = Some cart ∧
    post_create (Some uid) st1 =
    (mkResponse 409 false "Cart already exists for this user" (Some cart),
     st1).
Proof.
  intros Huid. simpl.
  assert (Hconf : ∀ s c, s !! uid = Some c →
            post_create (Some uid) s =
            (mkResponse 409 false "Cart already exists for this user"
               (Some c), s)).
  { intros s c Hs. unfold post_create. rewrite (falsy_Some uid Huid). simpl.
    rewrite bind_run. unfold getUserCart, findOne. simpl. by rewrite Hs. }
  destruct (st !! uid) as [c|] eqn:Hst.
  - rewrite (Hconf st c Hst). simpl. exists c. split; [done|by apply Hconf].
  - assert (Hnew : post_create (Some uid) st =
              (mkResponse 201 true "Cart created successfully"
                 (Some (mkCart uid [] 0 0)), <[uid := mkCart uid [] 0 0]> st)).
    { unfold post_create. rewrite (falsy_Some uid Huid). simpl.
      rewrite bind_run. unfold getUserCart, findOne. simpl.
      rewrite Hst, bind_run. by rewrite (getOrCreateCart_created _ _ Hst). }
    rewrite Hnew. simpl. exists (mkCart uid [] 0 0).
    split; [apply lookup_insert_eq|]. apply Hconf, lookup_insert_eq.
Qed.

Lemma second_create_conflicts_witness :
  ∃ cart,
    (post_create (Some "u3") store_two_users).2 !! "u3" = Some cart ∧
    post_create (Some "u3") (post_create (Some "u3") store_two_users).2 =
    (mkResponse 409 false "Cart already exists for this user" (Some cart),
     (post_create (Some "u3") store_two_users).2).
Proof.
  apply (second_create_conflicts "u3" store_two_users). discriminate.
Defined.

(** ** How the methods compose *)



(** X10: [removeProduct] undoes [addProduct] of a product the cart did not
    hold, when the id is spelled as its ObjectId prints it: the result is
    the cart with its totals recomputed. *)
Theorem removeProduct_undoes_addProduct (d : ProductData) (c : Cart) :
  canonical (pd_productId d) →
  Forall (λ y, productId y ≠ pd_productId d) (items c) →
  removeProduct (pd_productId d) (addProduct d c) = calculateTotals c.
Proof.
  intros Hcan Hc. unfold removeProduct.
  fold (others (pd_productId d) (items (addProduct d c))).
  rewrite (addProduct_new d c Hc), others_snoc by exact Hcan.
  rewrite (others_id _ _ Hc). unfold calculateTotals, setItems. simpl.
  f_equal. by destruct (findItem (pd_productId d) (items c)) as [[i x]|].
Qed.

Lemma removeProduct_undoes_addProduct_witness :
  removeProduct "p1" (addProduct widget cart_p2) = calculateTotals cart_p2.
Proof.
  apply (removeProduct_undoes_addProduct widget cart_p2).
  - reflexivity.
  - repeat constructor; simpl; discriminate.
Defined.

Lemma Qplus_minus_1 (q : Q) : (q + 1 - 1)%Q = q.
Proof.
  destruct q as [n d]. unfold Qminus, Qplus, Qopp. simpl. f_equal; lia.
Qed.

Lemma setQuantity_same (x : CartItem) : setQuantity (quantity x) x = x.
Proof. by destruct x. Qed.

Lemma increaseQuantity_found (pid : ObjectId) (c : Cart) l1 x l2 :
  items c = l1 ++ x :: l2 →
  Forall (λ y, productId y ≠ pid) l1 →
  productId x = pid →
  increaseQuantity pid c =
  calculateTotals (setItems (l1 ++ setQuantity (quantity x + 1) x :: l2) c).
Proof.
  intros Hc Hl1 Hx. unfold increaseQuantity.
  rewrite Hc, (findItem_middle _ l1 l2 x Hl1 Hx).
  by rewrite (alter_middle (λ item, setQuantity (quantity item + 1) item)).
Qed.

(** X11: [decreaseQuantity] undoes [increaseQuantity] on whole quantities.
    On a cart whose quantities are integers of at least 1 that stay within
    [Number.MAX_SAFE_INTEGER] when 1 is added, the range in which the sum
    and the difference are exact in the code's arithmetic, increasing and
    then decreasing a product gives back the same items and owner; when the
    product has no line the cart comes back untouched. *)
Theorem decreaseQuantity_undoes_increaseQuantity (pid : ObjectId) (c : Cart) :
  Forall (λ item, quantity_ok (quantity item) ∧
                  (quantity item + 1 <= max_safe_integer)%Q) (items c) →
  items (decreaseQuantity pid (increaseQuantity pid c)) = items c ∧
  userId (decreaseQuantity pid (increaseQuantity pid c)) = userId c ∧
  (Forall (λ y, productId y ≠ pid) (items c) →
   decreaseQuantity pid (increaseQuantity pid c) = c).
Proof.
  intros Hsafe.
  assert (Hpos : Forall (λ item, (0 < quantity item)%Q) (items c)).
  { eapply Forall_impl; [exact Hsafe|]. intros item [[_ Hq] _]. simpl. lra. }
  clear Hsafe.
  destruct (findItem pid (items c)) as [[i x]|] eqn:Hfind.
  - destruct (findItem_Some_split _ _ _ _ Hfind)
      as (l1 & l2 & Hc & _ & Hx & Hl1).
    assert (Hqx : (0 < quantity x)%Q).
    { rewrite Hc in Hpos.
      apply Forall_app in Hpos as [_ Hpos].
      by apply Forall_cons in Hpos as [Hpos _]. }
    rewrite (increaseQuantity_found pid c l1 x l2 Hc Hl1 Hx).
    rewrite (decreaseQuantity_found pid
               (calculateTotals
                  (setItems (l1 ++ setQuantity (quantity x + 1) x :: l2) c))
               l1 (setQuantity (quantity x + 1) x) l2 eq_refl Hl1 Hx).
    simpl. rewrite Qplus_minus_1.
    assert (Hle : Qle_bool (quantity x) 0 = false).
    { destruct (Qle_bool (quantity x) 0) eqn:E; [|done].
      apply Qle_bool_iff in E. lra. }
    rewrite Hle. simpl. split_and!; [|done|].
    + rewrite Hc. do 2 f_equal. by destruct x.
    + intros Habs%findItem_None. congruence.
  - unfold increaseQuantity. rewrite Hfind.
    unfold decreaseQuantity. by rewrite Hfind.
Qed.

Lemma decreaseQuantity_undoes_increaseQuantity_witness :
  items (decreaseQuantity "p1" (increaseQuantity "p1" cart_p2_p1)) =
  items cart_p2_p1.
Proof.
  apply (decreaseQuantity_undoes_increaseQuantity "p1" cart_p2_p1).
  apply Forall_cons. split.
  - split; [apply quantity_ok_1 | by intros ?].
  - apply Forall_singleton.
    split; [split; [by exists 3%Z | by intros ?] | by intros ?].
Defined.

Lemma findItem_alter (pid : ObjectId) (f : CartItem → CartItem)
    (its : list CartItem) i x :
  findItem pid its = Some (i, x) →
  productId (f x) = pid →
  findItem pid (alter f i its) = Some (i, f x).
Proof.
  intros (l1 & l2 & -> & -> & Hx & Hl1)%findItem_Some_split Hfx.
  rewrite alter_middle. by apply findItem_middle.
Qed.

(** X12: [updateQuantity] sets, it does not add: the last write wins. After
    a write of a quantity above 0, a second [updateQuantity] for the same
    product gives the cart that the second one alone gives; in particular
    writing the same quantity twice is writing it once. *)
Theorem updateQuantity_last_write_wins (pid : ObjectId) (q1 q2 : Q) (c : Cart) :
  (0 < q1)%Q →
  updateQuantity pid q2 (updateQuantity pid q1 c) = updateQuantity pid q2 c.
Proof.
  intros Hq1.
  assert (H1 : Qle_bool q1 0 = false).
  { destruct (Qle_bool q1 0) eqn:E; [|done]. apply Qle_bool_iff in E. lra. }
  unfold updateQuantity at 2. rewrite H1.
  destruct (findItem pid (items c)) as [[i x]|] eqn:Hfind; [|done].
  assert (Hx := findItem_productId _ _ _ _ Hfind).
  unfold updateQuantity. destruct (Qle_bool q2 0).
  - unfold removeProduct. simpl.
    fold (others pid (alter (setQuantity q1) i (items c))).
    fold (others pid (items c)).
    by rewrite (others_alter _ _ _ _ _ Hfind).
  - simpl. rewrite (findItem_alter _ (setQuantity q1) _ _ _ Hfind Hx), Hfind.
    unfold calculateTotals, setItems. simpl.
    assert (Hitems : alter (setQuantity q2) i (alter (setQuantity q1) i
                                                 (items c)) =
                     alter (setQuantity q2) i (items c)).
    { destruct (findItem_Some_split _ _ _ _ Hfind)
        as (l1 & l2 & -> & -> & _ & _).
      by rewrite !alter_middle. }
    by rewrite Hitems.
Qed.

Lemma updateQuantity_last_write_wins_witness :
  updateQuantity "p1" 7 (updateQuantity "p1" 4 cart_p2_p1) =
  updateQuantity "p1" 7 cart_p2_p1.
Proof.
  apply (updateQuantity_last_write_wins "p1" 4 7 cart_p2_p1). reflexivity.
Defined.

(** ** What the methods never do *)

(** X13: the number of lines. [addProduct] adds at most one line and never
    leaves the cart empty; [increaseQuantity] keeps the number of lines;
    [clearCart] leaves none; [removeProduct], [updateQuantity] and
    [decreaseQuantity] never add a line. *)
Theorem line_count_after_mutation (m : Mutation) (c : Cart) :
  let n := length (items c) in
  let n' := length (items (applyMutation m c)) in
  match m with
  | AddProduct _ => n ≤ n' ≤ S n ∧ isEmpty (applyMutation m c) = false
  | IncreaseQuantity _ => n' = n
  | ClearCart => n' = 0
  | RemoveProduct _ | UpdateQuantity _ _ | DecreaseQuantity _ => n' ≤ n
  end.
Proof.
  destruct m as [d|pid|pid q|pid|pid|]; simpl.
  - assert (Hn : length (items c) ≤ length (items (addProduct d c)) ≤
                 S (length (items c)) ∧
                 length (items (addProduct d c)) ≠ 0).
    { unfold addProduct. rewrite calculateTotals_items.
      destruct (findItem (pd_productId d) (items c)) as [[i x]|] eqn:Hfind;
        simpl.
      - rewrite length_alter.
        apply findItem_Some_split in Hfind as (l1 & l2 & -> & _).
        rewrite length_app. simpl. lia.
      - rewrite length_app. simpl. lia. }
    destruct Hn as [Hn Hne]. split; [exact Hn|].
    unfold isEmpty. by apply bool_decide_eq_false_2.
  - apply length_filter.
  - unfold updateQuantity. destruct (Qle_bool q 0); simpl.
    + apply length_filter.
    + destruct (findItem pid (items c)) as [[i x]|]; simpl; [|done].
      by rewrite length_alter.
  - unfold increaseQuantity.
    destruct (findItem pid (items c)) as [[i x]|]; simpl; [|done].
    by rewrite length_alter.
  - unfold decreaseQuantity.
    destruct (findItem pid (items c)) as [[i x]|]; simpl; [|done].
    destruct (Qle_bool _ 0); simpl.
    + etrans; [apply length_filter|]. by rewrite length_alter.
    + by rewrite length_alter.
  - done.
Qed.

Lemma same_snapshot_refl (x : CartItem) : same_snapshot x x.
Proof. by repeat split. Qed.

Lemma snapshot_alter (g : CartItem → Q) (i : nat) (its : list CartItem) y :
  y ∈ alter (λ item, setQuantity (g item) item) i its →
  ∃ x, x ∈ its ∧ same_snapshot x y.
Proof.
  revert i. induction its as [|z its IH]; intros [|i]; simpl.
  - by intros ?%not_elem_of_nil.
  - by intros ?%not_elem_of_nil.
  - intros [->|Hy]%elem_of_cons.
    + exists z. split; [apply list_elem_of_here | by repeat split].
    + exists y. split; [by apply list_elem_of_further|].
      apply same_snapshot_refl.
  - intros [->|Hy]%elem_of_cons.
    + exists z. split; [apply list_elem_of_here | apply same_snapshot_refl].
    + destruct (IH i Hy) as (x & Hx & Hs).
      exists x. split; [by apply list_elem_of_further | done].
Qed.

(** Where a line of the cart after a mutation comes from. *)
Lemma line_origin (m : Mutation) (c : Cart) (y : CartItem) :
  y ∈ items (applyMutation m c) →
  (∃ x, x ∈ items c ∧ same_snapshot x y) ∨
  (∃ d, m = AddProduct d ∧ y = newLine d ∧
        Forall (λ z, productId z ≠ pd_productId d) (items c)).
Proof.
  assert (Hsame : y ∈ items c → ∃ x, x ∈ items c ∧ same_snapshot x y).
  { intros Hy. exists y. split; [done | apply same_snapshot_refl]. }
  destruct m as [d|pid|pid q|pid|pid|]; simpl.
  - destruct (findItem (pd_productId d) (items c)) as [[i x]|] eqn:Hfind;
      simpl.
    + intros Hy. left.
      by apply (snapshot_alter (λ item, quantity item + 1)%Q i).
    + intros [Hy|Hy%list_elem_of_singleton]%elem_of_app; [by left; auto|].
      right. exists d. split_and!; [done..|]. by apply findItem_None.
  - intros [_ Hy]%list_elem_of_filter. left; auto.
  - unfold updateQuantity. destruct (Qle_bool q 0); simpl.
    + intros [_ Hy]%list_elem_of_filter. left; auto.
    + destruct (findItem pid (items c)) as [[i x]|]; simpl;
        [|by left; auto].
      intros Hy. left. by apply (snapshot_alter (λ _, q) i).
  - unfold increaseQuantity.
    destruct (findItem pid (items c)) as [[i x]|]; simpl; [|by left; auto].
    intros Hy. left. by apply (snapshot_alter (λ item, quantity item + 1)%Q i).
  - unfold decreaseQuantity.
    destruct (findItem pid (items c)) as [[i x]|]; simpl; [|by left; auto].
    destruct (Qle_bool _ 0); simpl.
    + intros [_ Hy]%list_elem_of_filter. left.
      by apply (snapshot_alter (λ item, quantity item - 1)%Q i).
    + intros Hy. left.
      by apply (snapshot_alter (λ item, quantity item - 1)%Q i).
  - by intros ?%not_elem_of_nil.
Qed.

(** X14: no method rewrites the snapshot on a line. Every line of the cart
    after a mutation carries the [productId], [name], [price], [image] and
    [category] of a line the cart had before, or is the one line that
    [addProduct] pushed: the cast id, the snapshot's fields and quantity 1,
    pushed when no line's id equals the id as it arrived. *)
Theorem snapshots_never_refreshed (m : Mutation) (c : Cart) (y : CartItem) :
  y ∈ items (applyMutation m c) →
  (∃ x, x ∈ items c ∧ same_snapshot x y) ∨
  (∃ d, m = AddProduct d ∧ y = newLine d ∧
        Forall (λ z, productId z ≠ pd_productId d) (items c)).
Proof.
  apply line_origin.
Qed.

Lemma snapshots_never_refreshed_witness :
  (∃ x, x ∈ items (addProduct widget cart_p2) ∧
        same_snapshot x (mkCartItem "p1" "Widget" 1000 (1 + 1) "" "")) ∨
  (∃ d, AddProduct widget_repriced = AddProduct d ∧
        mkCartItem "p1" "Widget" 1000 (1 + 1) "" "" = newLine d ∧
        Forall (λ z, productId z ≠ pd_productId d)
          (items (addProduct widget cart_p2))).
Proof.
  apply (snapshots_never_refreshed (AddProduct widget_repriced)
           (addProduct widget cart_p2)
           (mkCartItem "p1" "Widget" 1000 (1 + 1) "" "")).
  simpl. apply list_elem_of_further, list_elem_of_here.
Defined.

(** ** [addProduct] and [decreaseQuantity] as the other methods *)

(** X15: [addProduct] for a product that [find] finds is
    [increaseQuantity]: the two return the same cart, so nothing of the
    snapshot passed (name, price, image, category) reaches the cart or its
    totals, and two snapshots of the product give the same cart. *)
Theorem addProduct_on_held_product_is_increaseQuantity
    (d : ProductData) (c : Cart) :
  is_Some (findItem (pd_productId d) (items c)) →
  addProduct d c = increaseQuantity (pd_productId d) c ∧
  (∀ d', pd_productId d' = pd_productId d → addProduct d' c = addProduct d c).
Proof.
  intros [[i x] Hfind].
  assert (Hadd : ∀ d', pd_productId d' = pd_productId d →
            addProduct d' c = increaseQuantity (pd_productId d) c).
  { intros d' Hd'. unfold addProduct, increaseQuantity.
    rewrite Hd'. by rewrite Hfind. }
  split; [by apply Hadd|].
  intros d' Hd'. by rewrite (Hadd d' Hd'), (Hadd d eq_refl).
Qed.

Lemma addProduct_on_held_product_is_increaseQuantity_witness :
  addProduct widget_repriced cart_p1_once = increaseQuantity "p1" cart_p1_once.
Proof.
  apply (proj1 (addProduct_on_held_product_is_increaseQuantity widget_repriced
                  cart_p1_once ltac:(by eexists))).
Defined.

(** X16: [decreaseQuantity] on a line whose quantity is at most 1 is
    [removeProduct]: when the line that [find] returns has a quantity of 1
    or less, the two methods return the same cart. *)
Theorem decreaseQuantity_at_one_is_removeProduct
    (pid : ObjectId) (c : Cart) (i : nat) (x : CartItem) :
  findItem pid (items c) = Some (i, x) →
  (quantity x <= 1)%Q →
  decreaseQuantity pid c = removeProduct pid c.
Proof.
  intros Hfind Hq. unfold decreaseQuantity. rewrite Hfind.
  assert (Hle : Qle_bool (quantity x - 1) 0 = true).
  { apply Qle_bool_iff. lra. }
  rewrite Hle. unfold removeProduct. simpl.
  fold (others pid (alter (λ item, setQuantity (quantity item - 1) item) i
                      (items c))).
  fold (others pid (items c)).
  by rewrite (others_alter _ _ _ _ _ Hfind)
    by apply (findItem_productId _ _ _ _ Hfind).
Qed.

Lemma decreaseQuantity_at_one_is_removeProduct_witness :
  decreaseQuantity "p2" cart_p2_p1 = removeProduct "p2" cart_p2_p1.
Proof.
  apply (decreaseQuantity_at_one_is_removeProduct "p2" cart_p2_p1 0
           (mkCartItem "p2" "Gadget" 300 1 "" "")).
  - reflexivity.
  - apply Qle_refl.
Defined.

(** ** The bounds of the schema *)

Lemma sum_quantities_ge_count (its : list CartItem) :
  Forall (λ item, (1 <= quantity item)%Q) its →
  (inject_Z (Z.of_nat (length its)) <= sumQ (quantity <$> its))%Q.
Proof.
  induction 1 as [|y l Hy _ IH].
  - apply Qle_refl.
  - rewrite fmap_cons.
    change (sumQ (quantity y :: (quantity <$> l)))
      with (quantity y + sumQ (quantity <$> l))%Q.
    change (length (y :: l)) with (S (length l)).
    rewrite Nat2Z.inj_succ, <- Z.add_1_l, inject_Z_plus.
    change (inject_Z 1) with 1%Q. lra.
Qed.

Lemma sum_amounts_nonneg (its : list CartItem) :
  Forall (λ item, (0 <= price item)%Q) its →
  Forall (λ item, (1 <= quantity item)%Q) its →
  (0 <= sumQ (lineAmount <$> its))%Q.
Proof.
  induction 1 as [|y l Hy _ IH]; intros Hq.
  - apply Qle_refl.
  - apply Forall_cons in Hq as [Hqy Hq]. rewrite fmap_cons.
    change (sumQ (lineAmount y :: (lineAmount <$> l)))
      with (price y * quantity y + sumQ (lineAmount <$> l))%Q.
    assert (0 <= price y * quantity y)%Q by (apply Qmult_le_0_compat; lra).
    specialize (IH Hq). lra.
Qed.

Lemma quantities_ok_ge_1 (c : Cart) :
  quantities_ok c → Forall (λ item, (1 <= quantity item)%Q) (items c).
Proof.
  intros H. eapply Forall_impl; [exact H|]. by intros item [_ Hq].
Qed.

(** X17: the summary of a cart whose totals agree with its lines, whose
    quantities are integers of at least 1 and whose prices are at least 0:
    [totalAmount] is at least 0, [itemCount] is at most [totalItems], and
    [isEmpty] holds exactly when [totalItems] is 0. *)
Theorem summary_bounds (c : Cart) :
  totals_ok c → quantities_ok c → prices_ok c →
  let s := getCartSummary c in
  (0 <= summary_totalAmount s)%Q ∧
  (inject_Z (Z.of_nat (itemCount s)) <= summary_totalItems s)%Q ∧
  (summary_isEmpty s = true ↔ (summary_totalItems s == 0)%Q).
Proof.
  intros [Ha Hi] Hq%quantities_ok_ge_1 Hp. simpl.
  assert (Hcount := sum_quantities_ge_count (items c) Hq).
  split_and!.
  - rewrite Ha. by apply sum_amounts_nonneg.
  - by rewrite Hi.
  - unfold isEmpty. rewrite bool_decide_eq_true. split.
    + intros Hlen. apply nil_length_inv in Hlen.
      rewrite Hi, Hlen. reflexivity.
    + intros Hz. rewrite <- Hi, Hz in Hcount.
      change 0%Q with (inject_Z 0) in Hcount.
      rewrite <- Zle_Qle in Hcount. lia.
Qed.

Lemma cart_p2_p1_quantities_ok : quantities_ok cart_p2_p1.
Proof.
  apply Forall_cons. split; [apply quantity_ok_1|].
  apply Forall_singleton. split; [by exists 3%Z | by intros ?].
Qed.

Lemma cart_p2_p1_prices_ok : prices_ok cart_p2_p1.
Proof.
  apply Forall_cons. split; [by intros ?|].
  apply Forall_singleton. by intros ?.
Qed.

Lemma summary_bounds_witness :
  (0 <= summary_totalAmount (getCartSummary cart_p2_p1))%Q ∧
  (inject_Z (Z.of_nat (itemCount (getCartSummary cart_p2_p1))) <=
   summary_totalItems (getCartSummary cart_p2_p1))%Q ∧
  (summary_isEmpty (getCartSummary cart_p2_p1) = true ↔
   (summary_totalItems (getCartSummary cart_p2_p1) == 0)%Q).
Proof.
  apply (summary_bounds cart_p2_p1).
  - split; reflexivity.
  - apply cart_p2_p1_quantities_ok.
  - apply cart_p2_p1_prices_ok.
Defined.

Lemma quantities_ok_applyMutation (m : Mutation) (c : Cart) :
  quantities_ok c → integer_argument m → quantities_ok (applyMutation m c).
Proof.
  intros Hc Hm. apply (lines_ok_applyMutation quantity_ok); try done.
  - apply quantity_ok_1.
  - intros q [Hi Hq]. split; [by apply is_integer_plus_1 | lra].
  - intros q [Hi Hq] Hpos.
    split; [by apply is_integer_minus_1|].
    apply integer_positive_ge_1; [by apply is_integer_minus_1 | done].
  - intros pid q -> Hpos. simpl in Hm.
    split; [done | by apply integer_positive_ge_1].
Qed.

Lemma prices_ok_applyMutation (m : Mutation) (c : Cart) :
  prices_ok c → price_argument_ok m → prices_ok (applyMutation m c).
Proof.
  intros Hc Hm. apply Forall_forall. intros y Hy.
  destruct (line_origin m c y Hy)
    as [(x & Hx & _ & _ & Hprice & _)|(d & -> & -> & _)].
  - rewrite <- Hprice. by apply (proj1 (Forall_forall _ _) Hc).
  - done.
Qed.

(** X18: what is saved meets the bounds of the schema. From a cart whose
    quantities are integers of at least 1 and whose prices are at least 0,
    a mutation whose quantity argument is an integer and whose price
    argument is at least 0 leads to a saved cart with every quantity at
    least 1 ([min: 1]), every price at least 0 and both totals at least 0
    ([min: 0]). *)
Theorem saved_cart_meets_schema_bounds (m : Mutation) (c : Cart) :
  quantities_ok c → prices_ok c →
  integer_argument m → price_argument_ok m →
  let saved := pre_save (applyMutation m c) in
  Forall (λ item, (1 <= quantity item)%Q ∧ (0 <= price item)%Q)
         (items saved) ∧
  (0 <= totalAmount saved)%Q ∧ (0 <= totalItems saved)%Q.
Proof.
  intros Hq Hp Hmq Hmp. simpl.
  assert (Hq' := quantities_ok_ge_1 _ (quantities_ok_applyMutation m c Hq Hmq)).
  assert (Hp' := prices_ok_applyMutation m c Hp Hmp).
  destruct (calculateTotals_ok (applyMutation m c)) as [Ha Hi].
  simpl in Ha, Hi. split_and!.
  - apply Forall_forall. intros y Hy. split.
    + by apply (proj1 (Forall_forall _ _) Hq').
    + by apply (proj1 (Forall_forall _ _) Hp').
  - rewrite Ha. by apply sum_amounts_nonneg.
  - rewrite Hi.
    assert (Hcount := sum_quantities_ge_count _ Hq').
    assert (0 <= inject_Z (Z.of_nat (length (items (applyMutation m c)))))%Q.
    { change 0%Q with (inject_Z 0). rewrite <- Zle_Qle. lia. }
    lra.
Qed.

Lemma saved_cart_meets_schema_bounds_witness :
  (0 <= totalAmount (pre_save (applyMutation (DecreaseQuantity "p2")
                                 cart_p2_p1)))%Q.
Proof.
  apply (saved_cart_meets_schema_bounds (DecreaseQuantity "p2") cart_p2_p1).
  - apply cart_p2_p1_quantities_ok.
  - apply cart_p2_p1_prices_ok.
  - exact I.
  - exact I.
Defined.

(** ** The lock-out of the user model *)

Lemma failedLogins_below_twenty (clock : list (Z * Z * Z)) :
  ∀ n : Z,
    (n + Z.of_nat (length clock) < 20)%Z →
    failedLogins clock (mkUser n None) =
    mkUser (n + Z.of_nat (length clock)) None.
Proof.
  induction clock as [|[[t1 t2] t3] clock IH]; intros n Hn.
  - simpl. by rewrite Z.add_0_r.
  - change (failedLogins ((t1, t2, t3) :: clock) (mkUser n None))
      with (failedLogins clock (incLoginAttempts t1 t2 t3 (mkUser n None))).
    assert (Hstep : incLoginAttempts t1 t2 t3 (mkUser n None) =
                    mkUser (n + 1) None).
    { unfold incLoginAttempts. simpl.
      rewrite bool_decide_eq_false_2; [done|]. simpl length in Hn. lia. }
    rewrite Hstep, IH; [|simpl length in Hn; lia].
    f_equal. simpl length. lia.
Qed.

Lemma failedLogins_snoc (clock : list (Z * Z * Z)) t1 t2 t3 (u : User) :
  failedLogins (clock ++ [(t1, t2, t3)]) u =
  incLoginAttempts t1 t2 t3 (failedLogins clock u).
Proof. unfold failedLogins. by rewrite foldl_app. Qed.

(** X19: the account locks at the twentieth failed login, not before.
    After [resetLoginAttempts] (a successful login), fewer than 20 failed
    logins leave the account unlocked with the counter at their number;
    the twentieth sets the lock to two hours after its reading of the
    clock, so the account is locked exactly until then. *)
Theorem lock_at_twentieth_failure
    (u : User) (clock : list (Z * Z * Z)) (t1 t2 t3 now : Z) :
  let fresh := resetLoginAttempts u in
  (length clock < 20 →
   failedLogins clock fresh = mkUser (Z.of_nat (length clock)) None ∧
   isLocked now (failedLogins clock fresh) = false) ∧
  (length clock = 19 →
   failedLogins (clock ++ [(t1, t2, t3)]) fresh =
     mkUser 20 (Some (t3 + 7200000)%Z) ∧
   (isLocked now (failedLogins (clock ++ [(t1, t2, t3)]) fresh) = true ↔
    (now < t3 + 7200000)%Z)).
Proof.
  simpl. change (resetLoginAttempts u) with (mkUser 0 None).
  split; intros Hlen.
  - rewrite (failedLogins_below_twenty clock 0) by lia. by rewrite Z.add_0_l.
  - rewrite failedLogins_snoc, (failedLogins_below_twenty clock 0) by lia.
    rewrite Hlen. split; [done|].
    unfold isLocked. simpl. apply bool_decide_eq_true.
Qed.

Lemma lock_at_twentieth_failure_witness :
  failedLogins [(5, 5, 6)%Z; (7, 7, 7)%Z] (resetLoginAttempts (mkUser 3 (Some 9%Z))) =
    mkUser 2 None ∧
  isLocked 100 (failedLogins [(5, 5, 6)%Z; (7, 7, 7)%Z]
                  (resetLoginAttempts (mkUser 3 (Some 9%Z)))) = false.
Proof.
  apply (proj1 (lock_at_twentieth_failure (mkUser 3 (Some 9%Z))
                  [(5, 5, 6)%Z; (7, 7, 7)%Z] 0 0 0 100)).
  simpl. lia.
Defined.

(** X20: a failed login never moves a lock that is still running, and an
    expired lock restarts the count. While the account is locked (the lock
    lies after the clock readings), [incLoginAttempts] adds 1 to the
    counter and leaves [lockUntil] as it is, however high the counter; once
    the lock has expired, it sets the counter to 1 and removes the lock,
    whatever the counter was. *)
Theorem running_lock_is_kept (this : User) (t t1 t2 t3 : Z) :
  lockUntil this = Some t →
  ((t1 ≤ t2)%Z → (t2 < t)%Z →
   incLoginAttempts t1 t2 t3 this =
   mkUser (loginAttempts this + 1) (Some t)) ∧
  ((t < t1)%Z → incLoginAttempts t1 t2 t3 this = mkUser 1 None).
Proof.
  intros Hlock. unfold incLoginAttempts, isLocked. rewrite Hlock. split.
  - intros H12 H2t.
    rewrite (bool_decide_eq_false_2 (t < t1)%Z) by lia.
    rewrite (bool_decide_eq_true_2 (t2 < t)%Z) by lia.
    rewrite andb_false_r. unfold updateOne. simpl. by rewrite Hlock.
  - intros Ht. by rewrite (bool_decide_eq_true_2 (t < t1)%Z) by lia.
Qed.

Lemma running_lock_is_kept_witness :
  incLoginAttempts 10 11 12 (mkUser 25 (Some 1000%Z)) =
    mkUser (25 + 1) (Some 1000%Z) ∧
  incLoginAttempts 2000 2001 2002 (mkUser 25 (Some 1000%Z)) = mkUser 1 None.
Proof.
  split.
  - apply (proj1 (running_lock_is_kept (mkUser 25 (Some 1000%Z)) 1000
                    10 11 12 eq_refl)); reflexivity || (simpl; lia).
  - apply (proj2 (running_lock_is_kept (mkUser 25 (Some 1000%Z)) 1000
                    2000 2001 2002 eq_refl)). reflexivity.
Defined.
